(** * FIDO2 workflow diagram generator: a shallow embedding

    This development embeds [generate_workflow_diagram.py] and checks the
    statements of its specification against it.

    - Coordinates are Python floats, i.e. IEEE-754 binary64 numbers; they are
      embedded as Rocq primitive floats, which have the same format and the
      same round-to-nearest-even arithmetic.
    - The interpreter state the script touches (matplotlib's [rcParams], the
      font manager, pyplot's open figures, standard output and the file
      system) is one record, [Process], threaded through a state and
      exception monad [M].
    - The Python objects local to one call ([fig], [ax]) are values passed
      along explicitly.
    - What the host decides (the platform name, the installed fonts) is a
      record [Host] that every operation receives. *)

From Stdlib Require Import Floats Uint63 ZArith List Bool Ascii String.
From stdpp Require Import gmap strings list.
Import ListNotations.

Set Warnings "-inexact-float,-clear-no-such-hyp".

(** ** Python values used by the script *)

(** [float(n)] for a small non-negative [int]. *)
Definition py_float (n : nat) : float := PrimFloat.of_uint63 (Uint63.of_Z (Z.of_nat n)).

(** A point [(x, y)]. *)
Definition point : Type := float * float.

Definition point_eqb (a b : point) : bool :=
  (PrimFloat.eqb (fst a) (fst b) && PrimFloat.eqb (snd a) (snd b))%bool.

(** The two kinds of values the script compares with [!=]. *)
Inductive pyval :=
| PyStr (s : string)
| PyList (l : list string).

Fixpoint str_list_eqb (l m : list string) : bool :=
  match l, m with
  | [], [] => true
  | a :: l', b :: m' => (String.eqb a b && str_list_eqb l' m')%bool
  | _, _ => false
  end.

(** Python's [==]: values of different types are never equal. *)
Definition py_eq (a b : pyval) : bool :=
  match a, b with
  | PyStr s, PyStr t => String.eqb s t
  | PyList l, PyList m => str_list_eqb l m
  | _, _ => false
  end.

Definition py_ne (a b : pyval) : bool := negb (py_eq a b).

(** A [dict] with string keys, in insertion order. *)
Definition dict (V : Type) : Type := list (string * V).

Fixpoint dict_get {V} (d : dict V) (k : string) : option V :=
  match d with
  | [] => None
  | (k', v) :: d' => if String.eqb k' k then Some v else dict_get d' k
  end.

(** [l[a:b]] for in-range or out-of-range bounds [0 <= a], [0 <= b]. *)
Definition slice {A} (l : list A) (a b : nat) : list A := firstn (b - a) (skipn a l).

(** [enumerate(l)]. *)
Definition enumerate {A} (l : list A) : list (nat * A) := combine (seq 0 (length l)) l.

(** ** [os.path] on Windows ([ntpath]) *)

Module ntpath.

Definition is_sep (c : ascii) : bool :=
  (Ascii.eqb c "/"%char || Ascii.eqb c "\"%char)%bool.

(** [splitdrive(p)[1]] for a drive-letter prefix. *)
Definition strip_drive (p : string) : string :=
  match p with
  | String _ (String c rest) => if Ascii.eqb c ":"%char then rest else p
  | _ => p
  end.

(** The part of [p] after its last separator; [acc] is the part read since
    the last separator seen. *)
Fixpoint after_last_sep (p acc : string) : string :=
  match p with
  | EmptyString => String.rev acc
  | String c rest =>
      if is_sep c then after_last_sep rest EmptyString
      else after_last_sep rest (String c acc)
  end.

Definition basename (p : string) : string := after_last_sep (strip_drive p) EmptyString.

(** Index of the last [.] of [p] after its last separator, counting from
    [i]. *)
Fixpoint last_dot (p : string) (i : nat) (found : option nat) : option nat :=
  match p with
  | EmptyString => found
  | String c rest =>
      if is_sep c then last_dot rest (S i) None
      else if Ascii.eqb c "."%char then last_dot rest (S i) (Some i)
      else last_dot rest (S i) found
  end.

Fixpoint last_sep (p : string) (i : nat) (found : option nat) : option nat :=
  match p with
  | EmptyString => found
  | String c rest =>
      if is_sep c then last_sep rest (S i) (Some i) else last_sep rest (S i) found
  end.

(** Is there a character other than [.] in [p[a:b]]? *)
Definition has_non_dot (p : string) (a b : nat) : bool :=
  existsb (fun c => negb (Ascii.eqb c "."%char))
    (slice (list_ascii_of_string p) a b).

(** [splitext(p)]: the extension starts at the last dot of the last path
    component, unless only dots come before it in that component. *)
Definition splitext (p : string) : string * string :=
  match last_dot p 0 None with
  | None => (p, EmptyString)
  | Some d =>
      let start := match last_sep p 0 None with Some s => S s | None => 0%nat end in
      if has_non_dot p start d
      then (String.substring 0 d p, String.substring d (String.length p - d) p)
      else (p, EmptyString)
  end.

End ntpath.

(** ** matplotlib artists *)

(** [ax.text(x, y, s, fontsize=, fontweight=, ha=, va=, color=, wrap=)];
    [text_color = None] when the call leaves the colour to the default. *)
Record Text := {
  text_x : float;
  text_y : float;
  text_s : string;
  text_fontsize : Z;
  text_fontweight : string;
  text_ha : string;
  text_va : string;
  text_color : option string;
  text_wrap : bool
}.

(** [FancyBboxPatch((x, y), width, height, boxstyle=, facecolor=,
    edgecolor=, linewidth=)]. *)
Record FancyBboxPatch := {
  box_x : float;
  box_y : float;
  box_width : float;
  box_height : float;
  box_boxstyle : string;
  box_facecolor : string;
  box_edgecolor : string;
  box_linewidth : Z
}.

(** [ConnectionPatch(xyA, xyB, coordsA, coordsB, arrowstyle=, shrinkA=,
    shrinkB=, mutation_scale=, fc=)]. *)
Record ConnectionPatch := {
  arrow_xyA : point;
  arrow_xyB : point;
  arrow_coordsA : string;
  arrow_coordsB : string;
  arrow_arrowstyle : string;
  arrow_shrinkA : Z;
  arrow_shrinkB : Z;
  arrow_mutation_scale : Z;
  arrow_fc : string
}.

(** What [ax.add_patch] receives. *)
Inductive Artist :=
| Box (b : FancyBboxPatch)
| Arrow (c : ConnectionPatch).

(** [patches.Patch(color=, label=)], a legend handle. *)
Record Patch := {
  patch_color : string;
  patch_label : string
}.

(** [ax.legend(handles=, loc=, bbox_to_anchor=)]. *)
Record Legend := {
  legend_handles : list Patch;
  legend_loc : string;
  legend_bbox_to_anchor : point
}.

(** An [Axes]: its limits, whether the axis decorations are drawn, and the
    artists in the order in which they were added. *)
Record Axes := {
  ax_xlim : point;
  ax_ylim : point;
  ax_axison : bool;
  ax_texts : list Text;
  ax_patches : list Artist;
  ax_legend : option Legend
}.

(** A [Figure] with its single [Axes]. *)
Record Figure := {
  fig_figsize : point;
  fig_axes : Axes;
  fig_tight_layout : bool
}.

Module Ax.

Definition set_xlim (ax : Axes) (lo hi : float) : Axes :=
  {| ax_xlim := (lo, hi); ax_ylim := ax_ylim ax; ax_axison := ax_axison ax;
     ax_texts := ax_texts ax; ax_patches := ax_patches ax; ax_legend := ax_legend ax |}.

Definition set_ylim (ax : Axes) (lo hi : float) : Axes :=
  {| ax_xlim := ax_xlim ax; ax_ylim := (lo, hi); ax_axison := ax_axison ax;
     ax_texts := ax_texts ax; ax_patches := ax_patches ax; ax_legend := ax_legend ax |}.

(** [ax.axis('off')]. *)
Definition axis_off (ax : Axes) : Axes :=
  {| ax_xlim := ax_xlim ax; ax_ylim := ax_ylim ax; ax_axison := false;
     ax_texts := ax_texts ax; ax_patches := ax_patches ax; ax_legend := ax_legend ax |}.

Definition text (ax : Axes) (t : Text) : Axes :=
  {| ax_xlim := ax_xlim ax; ax_ylim := ax_ylim ax; ax_axison := ax_axison ax;
     ax_texts := ax_texts ax ++ [t]; ax_patches := ax_patches ax;
     ax_legend := ax_legend ax |}.

Definition add_patch (ax : Axes) (a : Artist) : Axes :=
  {| ax_xlim := ax_xlim ax; ax_ylim := ax_ylim ax; ax_axison := ax_axison ax;
     ax_texts := ax_texts ax; ax_patches := ax_patches ax ++ [a];
     ax_legend := ax_legend ax |}.

Definition legend (ax : Axes) (l : Legend) : Axes :=
  {| ax_xlim := ax_xlim ax; ax_ylim := ax_ylim ax; ax_axison := ax_axison ax;
     ax_texts := ax_texts ax; ax_patches := ax_patches ax; ax_legend := Some l |}.

End Ax.

(** ** The interpreter state *)

(** The two entries of [matplotlib.rcParams] that the script writes. *)
Record RcParams := {
  font_sans_serif : list string;
  axes_unicode_minus : bool
}.

(** What [Figure.savefig] encodes into a file: the figure, the options of the
    call, and the font configuration in force when the text is rasterised
    (the [rcParams] entries and the fonts registered with the font manager).
    The raster bytes are a function of these; the model keeps the arguments
    of that function instead of the bytes. *)
Record SavedImage := {
  img_figure : Figure;
  img_dpi : Z;
  img_bbox_inches : string;
  img_facecolor : string;
  img_rc : RcParams;
  img_fonts : list string
}.

Inductive File :=
| ImageFile (img : SavedImage)
| OtherFile.

(** The state of the Python process and of the file system it sees. *)
Record Process := {
  rcParams : RcParams;
  fontManager : list string;
  open_figures : nat;
  stdout : list string;
  dirs : gset string;
  files : gmap string File
}.

(** What the host machine decides: [platform.system()], whether
    [fontManager.addfont] raises on a font file (and with which message),
    whether the module [matplotlib.font_manager] has an attribute [rcParams]
    (it depends on the installed version), and the path [findfont] returns for
    a family name ([None] when it raises). *)
Record Host := {
  platform_system : string;
  addfont_error : string -> option string;
  fm_has_rcParams : bool;
  findfont : string -> option string
}.

Definition set_rcParams (rc : RcParams) (p : Process) : Process :=
  {| rcParams := rc; fontManager := fontManager p; open_figures := open_figures p;
     stdout := stdout p; dirs := dirs p; files := files p |}.

Definition set_fontManager (l : list string) (p : Process) : Process :=
  {| rcParams := rcParams p; fontManager := l; open_figures := open_figures p;
     stdout := stdout p; dirs := dirs p; files := files p |}.

Definition set_open_figures (n : nat) (p : Process) : Process :=
  {| rcParams := rcParams p; fontManager := fontManager p; open_figures := n;
     stdout := stdout p; dirs := dirs p; files := files p |}.

Definition set_stdout (l : list string) (p : Process) : Process :=
  {| rcParams := rcParams p; fontManager := fontManager p; open_figures := open_figures p;
     stdout := l; dirs := dirs p; files := files p |}.

Definition set_dirs (d : gset string) (p : Process) : Process :=
  {| rcParams := rcParams p; fontManager := fontManager p; open_figures := open_figures p;
     stdout := stdout p; dirs := d; files := files p |}.

Definition set_files (f : gmap string File) (p : Process) : Process :=
  {| rcParams := rcParams p; fontManager := fontManager p; open_figures := open_figures p;
     stdout := stdout p; dirs := dirs p; files := f |}.

(** ** Exceptions and the monad of statements *)

Inductive exn :=
| IndexError
| KeyError (key : string)
| AttributeError (msg : string)
| RuntimeError (msg : string)
| FileExistsError (path : string)
| FileNotFoundError (path : string)
| IsADirectoryError (path : string).

(** [str(e)]. *)
Definition exn_str (e : exn) : string :=
  match e with
  | IndexError => "list index out of range"
  | KeyError k => k
  | AttributeError m => m
  | RuntimeError m => m
  | FileExistsError p => "File exists: " +:+ p
  | FileNotFoundError p => "No such file or directory: " +:+ p
  | IsADirectoryError p => "Is a directory: " +:+ p
  end.

(** A statement either completes with a value or raises, and leaves a state
    behind in both cases. *)
Inductive outcome (A : Type) :=
| Return (a : A) (p : Process)
| Raise (e : exn) (p : Process).
Arguments Return {A} a p.
Arguments Raise {A} e p.

Definition M (A : Type) : Type := Process -> outcome A.

Definition ret {A} (a : A) : M A := fun p => Return a p.

Definition bind {A B} (c : M A) (k : A -> M B) : M B :=
  fun p => match c p with
           | Return a p' => k a p'
           | Raise e p' => Raise e p'
           end.

Definition raise {A} (e : exn) : M A := fun p => Raise e p.

(** [try: c / except Exception as e: handler e]. *)
Definition try_except {A} (c : M A) (handler : exn -> M A) : M A :=
  fun p => match c p with
           | Return a p' => Return a p'
           | Raise e p' => handler e p'
           end.

Declare Scope py_scope.
Delimit Scope py_scope with py.
Notation "x <- c1 ;; c2" := (bind c1 (fun x => c2))
  (at level 100, c1 at next level, c2 at level 200, right associativity) : py_scope.
Notation "c1 ;; c2" := (bind c1 (fun _ => c2))
  (at level 100, c2 at level 200, right associativity) : py_scope.
Local Open Scope py_scope.

(** [for a in l: body], where the body may [return] a value ([Some]) or fall
    through to the next iteration ([None]). *)
Fixpoint for_return {A R} (l : list A) (body : A -> M (option R)) : M (option R) :=
  match l with
  | [] => ret None
  | a :: l' =>
      r <- body a ;;
      match r with
      | Some v => ret (Some v)
      | None => for_return l' body
      end
  end.

(** [for a in l: body], where the body updates the local object [s]. *)
Fixpoint for_fold {A S} (l : list A) (s : S) (body : S -> A -> M S) : M S :=
  match l with
  | [] => ret s
  | a :: l' => s' <- body s a ;; for_fold l' s' body
  end.

(** [l[i]]. *)
Definition getitem (l : list string) (i : nat) : M string :=
  match l !! i with
  | Some s => ret s
  | None => raise IndexError
  end.

(** [d[k]]. *)
Definition getkey (d : dict string) (k : string) : M string :=
  match dict_get d k with
  | Some v => ret v
  | None => raise (KeyError k)
  end.

(** ** The library calls of the script *)

Definition print (s : string) : M unit :=
  fun p => Return tt (set_stdout (stdout p ++ [s]) p).

Definition path_dirname (path : string) : string :=
  match ntpath.last_sep path 0 None with
  | Some i => String.substring 0 i path
  | None => EmptyString
  end.

Definition is_dir (path : string) (p : Process) : bool := bool_decide (path ∈ dirs p).

Definition is_file (path : string) (p : Process) : bool :=
  match files p !! path with Some _ => true | None => false end.

(** [os.path.exists(path)]. *)
Definition os_path_exists (path : string) : M bool :=
  fun p => Return (is_dir path p || is_file path p) p.

(** [os.makedirs(name, exist_ok=)] for a one-component relative [name]. *)
Definition os_makedirs (name : string) (exist_ok : bool) : M unit :=
  fun p =>
    if is_dir name p then
      if exist_ok then Return tt p else Raise (FileExistsError name) p
    else if is_file name p then Raise (FileExistsError name) p
    else Return tt (set_dirs ({[ name ]} ∪ dirs p) p).

(** [fm.fontManager.addfont(path)]. *)
Definition fm_addfont (h : Host) (path : string) : M unit :=
  fun p =>
    match addfont_error h path with
    | Some msg => Raise (RuntimeError msg) p
    | None => Return tt (set_fontManager (fontManager p ++ [path]) p)
    end.

(** [fm.findfont(fm.FontProperties(family=family))]. *)
Definition fm_findfont (h : Host) (family : string) : M string :=
  match findfont h family with
  | Some path => ret path
  | None => raise (RuntimeError "findfont")
  end.

(** [plt.rcParams['font.sans-serif']]. *)
Definition plt_rcParams_sans_serif : M (list string) :=
  fun p => Return (font_sans_serif (rcParams p)) p.

(** [fm.rcParams['font.sans-serif']]: the same object, when the module has
    the attribute. *)
Definition fm_rcParams_sans_serif (h : Host) : M (list string) :=
  if fm_has_rcParams h then plt_rcParams_sans_serif
  else raise (AttributeError "module 'matplotlib.font_manager' has no attribute 'rcParams'").

(** [plt.rcParams['font.sans-serif'] = l]. *)
Definition plt_rcParams_set_sans_serif (l : list string) : M unit :=
  fun p => Return tt
    (set_rcParams {| font_sans_serif := l;
                     axes_unicode_minus := axes_unicode_minus (rcParams p) |} p).

(** [plt.rcParams['axes.unicode_minus'] = b]. *)
Definition plt_rcParams_set_unicode_minus (b : bool) : M unit :=
  fun p => Return tt
    (set_rcParams {| font_sans_serif := font_sans_serif (rcParams p);
                     axes_unicode_minus := b |} p).

(** [plt.subplots(1, 1, figsize=)]: a new open figure with one empty axes. *)
Definition plt_subplots (figsize : point) : M Figure :=
  fun p => Return
    {| fig_figsize := figsize;
       fig_axes := {| ax_xlim := (0, 1)%float; ax_ylim := (0, 1)%float; ax_axison := true;
                      ax_texts := []; ax_patches := []; ax_legend := None |};
       fig_tight_layout := false |}
    (set_open_figures (S (open_figures p)) p).

(** The figure [fig] once the calls on its axes have produced [ax]. *)
Definition with_axes (fig : Figure) (ax : Axes) : Figure :=
  {| fig_figsize := fig_figsize fig; fig_axes := ax;
     fig_tight_layout := fig_tight_layout fig |}.

(** [plt.tight_layout()] on the current figure. *)
Definition plt_tight_layout (fig : Figure) : Figure :=
  {| fig_figsize := fig_figsize fig; fig_axes := fig_axes fig; fig_tight_layout := true |}.

(** [plt.close(fig)]. *)
Definition plt_close (fig : Figure) : M unit :=
  fun p => Return tt (set_open_figures (pred (open_figures p)) p).

(** What [savefig] rasterises in the state [p]. *)
Definition rasterise (fig : Figure) (dpi : Z) (bbox_inches facecolor : string)
    (p : Process) : SavedImage :=
  {| img_figure := fig; img_dpi := dpi; img_bbox_inches := bbox_inches;
     img_facecolor := facecolor; img_rc := rcParams p; img_fonts := fontManager p |}.

(** [fig.savefig(filename, dpi=, bbox_inches=, facecolor=)]: the file is
    created or replaced; its directory has to exist. *)
Definition fig_savefig (fig : Figure) (filename : string) (dpi : Z)
    (bbox_inches facecolor : string) : M unit :=
  fun p =>
    if is_dir filename p then Raise (IsADirectoryError filename) p
    else if negb (String.eqb (path_dirname filename) EmptyString
                  || is_dir (path_dirname filename) p)
    then Raise (FileNotFoundError filename) p
    else Return tt
      (set_files (<[ filename := ImageFile (rasterise fig dpi bbox_inches facecolor p) ]>
                    (files p)) p).

(** ** [setup_chinese_font] *)

Definition chinese_fonts : list string :=
  ["SimHei"; "Microsoft YaHei"; "SimSun"; "KaiTi"; "FangSong"; "Arial Unicode MS"].

Definition font_paths : list string :=
  ["C:/Windows/Fonts/simhei.ttf";
   "C:/Windows/Fonts/msyh.ttc";
   "C:/Windows/Fonts/simsun.ttc";
   "C:/Windows/Fonts/simkai.ttf";
   "C:/Windows/Fonts/simfang.ttf"].

Definition setup_chinese_font (h : Host) : M bool :=
  let system := platform_system h in
  r <- (if String.eqb system "Windows" then
          for_return font_paths (fun font_path =>
            e <- os_path_exists font_path ;;
            if e : bool then
              try_except
                (fm_addfont h font_path ;;
                 let font_name := fst (ntpath.splitext (ntpath.basename font_path)) in
                 sans <- plt_rcParams_sans_serif ;;
                 plt_rcParams_set_sans_serif ([font_name] ++ sans) ;;
                 plt_rcParams_set_unicode_minus false ;;
                 print ("Using Chinese font: " +:+ font_name +:+ " from " +:+ font_path) ;;
                 ret (Some true))
                (fun e =>
                   print ("Failed to load font " +:+ font_path +:+ ": " +:+ exn_str e) ;;
                   ret None)
            else ret None)
        else ret None) ;;
  match r with
  | Some b => ret b
  | None =>
      r <- for_return chinese_fonts (fun font_name =>
             try_except
               (font_path <- fm_findfont h font_name ;;
                sans <- fm_rcParams_sans_serif h ;;
                if py_ne (PyStr font_path) (PyList sans) then
                  sans <- plt_rcParams_sans_serif ;;
                  plt_rcParams_set_sans_serif ([font_name] ++ sans) ;;
                  plt_rcParams_set_unicode_minus false ;;
                  print ("Using Chinese font: " +:+ font_name) ;;
                  ret (Some true)
                else ret None)
               (fun _ => ret None)) ;;
      match r with
      | Some b => ret b
      | None =>
          print "Warning: No Chinese font found, Chinese text may not display correctly" ;;
          ret false
      end
  end.

(** ** [create_fido2_workflow_diagram] *)

Definition colors : dict string :=
  [("init", "#E3F2FD");
   ("registration", "#F3E5F5");
   ("pin_setup", "#FFF3E0");
   ("auth", "#E8F5E8");
   ("error", "#FFEBEE");
   ("success", "#E8F5E8");
   ("border", "#1976D2")].

Definition title_zh : string := "FIDO2 设备工作流程（18步详细版）".

Definition steps_zh : list string :=
  ["1. 设备初始化，创建CA的公钥、私钥和证书";
   "2. 创建生成凭据的公钥、私钥和基于CA证书的凭据证书";
   "3. 创建PIN通信的公钥私钥";
   "4. 客户端请求MakeCredential";
   "5. 设备检测是否支持PIN，若是则检测是否已经设置PIN";
   "6. 若未设置PIN，则返回错误码，告诉client需要设置PIN";
   "7. 客户端发送getKeyAgreement获取密钥交换信息，计算共享密钥";
   "8. 客户端使用共享密钥对用户输入密码进行加密，将加密后的密码和自己的公钥信息一并发送给设备";
   "9. 设备收到setPIN请求后，使用客户端发送过来的公钥信息生成共享密钥，使用共享密钥对加密过的PIN码进行解密，然后记录PIN码的hash值";
   "10. 客户端发送getPINToken请求，设备使用共享密钥对发送过来的加密过的pinHash进行解密，并与本地记录的pinHash进行对比验证，若匹配则返回使用共享密钥加密过的pinToken";
   "11. 这时设备已经完成了PIN码的设置和pinToken的获取，若设备不支持PIN，则没有6~10的步骤";
   "12. 继续接着步骤5，若设备支持PIN并且PIN已经设置，则根据客户端的请求对pinToken进行校验，如果pinToken校验失败，则返回PIN码错误信息";
   "13. 设备不支持PIN，或者pinToken校验成功后，设备开始创建凭证，创建凭证前设备会通过一定的方式弹出认证UI，让用户决定是否允许创建凭证";
   "14. 用户允许后，设备开始创建凭证信息并将凭证信息发送给客户端，然后本地存储一份。凭据信息包含证书、公钥和随机生成的凭据ID";
   "15. 客户端请求GetAssertion认证，设备根据客户端传递过来的凭据ID查找本地是否存在对应的凭据信息";
   "16. 若不存在，则返回凭据不存在的错误信息";
   "17. 若存在，则对token、rp等信息进行简单校验，然后将客户端传递过来的clientDataHash、rp信息和本地存储的凭据相关信息一并发送给客户端，并对这些数据进行签名";
   "18. 客户端收到设备发送的Assertion数据，使用设备的公钥进行校验，然后对发送过来的凭证信息进行对比认证"].

Definition title_en : string := "FIDO2 Device Workflow (18-Step Detailed Version)".

Definition steps_en : list string :=
  ["1. Device initialization, create CA public key, private key, and certificate";
   "2. Create credential public key, private key and credential certificate based on CA certificate";
   "3. Create PIN communication public/private key pair";
   "4. Client requests MakeCredential";
   "5. Device checks if PIN is supported, if yes then checks if PIN is already set";
   "6. If PIN is not set, return error code, telling client PIN setup is required";
   "7. Client sends getKeyAgreement to get key exchange information, calculate shared key";
   "8. Client encrypts user input password with shared key, sends encrypted password and public key info to device";
   "9. Device receives setPIN request, uses client's public key to generate shared key, decrypts encrypted PIN with shared key, then records PIN hash value";
   "10. Client sends getPINToken request, device decrypts encrypted pinHash with shared key, compares with locally stored pinHash, if match returns shared key encrypted pinToken";
   "11. Device has completed PIN setup and pinToken acquisition, if device doesn't support PIN, steps 6-10 are skipped";
   "12. Continue from step 5, if device supports PIN and PIN is set, validate pinToken per client request, if validation fails return PIN error";
   "13. Device doesn't support PIN, or pinToken validation succeeds, device starts creating credential, before creating credential device shows authentication UI for user consent";
   "14. After user allows, device creates credential info and sends to client, then stores locally. Credential info includes certificate, public key, and randomly generated credential ID";
   "15. Client requests GetAssertion authentication, device looks up credential info by credential ID passed from client";
   "16. If not found, return credential not found error";
   "17. If found, validate token, rp info, then send clientDataHash, rp info from client and locally stored credential info to client, and sign this data";
   "18. Client receives Assertion data from device, verifies with device's public key, then compares received credential info for authentication"].

(** The title and the step texts of the [if language == 'zh': ... else: ...]
    block. *)
Definition resolve_text (language : string) : string * list string :=
  if String.eqb language "zh" then (title_zh, steps_zh) else (title_en, steps_en).

(** The keyword arguments every box of the diagram shares:
    [FancyBboxPatch((x, y), 3, 0.5, boxstyle="round,pad=0.1", facecolor=,
    edgecolor=, linewidth=2)]. *)
Definition fancy_box (x y : float) (facecolor edgecolor : string) : Artist :=
  Box {| box_x := x; box_y := y; box_width := 3; box_height := 0.5;
         box_boxstyle := "round,pad=0.1"; box_facecolor := facecolor;
         box_edgecolor := edgecolor; box_linewidth := 2 |}.

(** [ConnectionPatch(xyA, xyB, "data", "data", arrowstyle="->", shrinkA=5,
    shrinkB=5, mutation_scale=20, fc=)]. *)
Definition connection (xyA xyB : point) (fc : string) : Artist :=
  Arrow {| arrow_xyA := xyA; arrow_xyB := xyB; arrow_coordsA := "data";
           arrow_coordsB := "data"; arrow_arrowstyle := "->"; arrow_shrinkA := 5;
           arrow_shrinkB := 5; arrow_mutation_scale := 20; arrow_fc := fc |}.

(** [ax.text(x, y, s, fontsize=, fontweight='bold', ha='center',
    va='center', color=)]: a heading. *)
Definition heading (x y : float) (s : string) (fontsize : Z) (color : option string) : Text :=
  {| text_x := x; text_y := y; text_s := s; text_fontsize := fontsize;
     text_fontweight := "bold"; text_ha := "center"; text_va := "center";
     text_color := color; text_wrap := false |}.

(** [ax.text(x, y, s, fontsize=, ha='center', va='center', wrap=True)]: the
    text of a step. *)
Definition step_text (x y : float) (s : string) (fontsize : Z) : Text :=
  {| text_x := x; text_y := y; text_s := s; text_fontsize := fontsize;
     text_fontweight := "normal"; text_ha := "center"; text_va := "center";
     text_color := None; text_wrap := true |}.

(** One box of the diagram: the statements
    [box = FancyBboxPatch((x, y-0.25), ..., facecolor=colors[face], ...)],
    [ax.add_patch(box)], [ax.text(tx, y, text, fontsize=, ...)], where [text]
    is the expression the source passes ([steps[i]] or the loop variable),
    evaluated where the source evaluates it. *)
Definition draw_step (ax : Axes) (x y : float) (face : string) (tx : float)
    (text : M string) (fontsize : Z) : M Axes :=
  fc <- getkey colors face ;;
  ec <- getkey colors "border" ;;
  let ax := Ax.add_patch ax (fancy_box x (y - 0.25) fc ec) in
  s <- text ;;
  ret (Ax.text ax (step_text tx y s fontsize)).

(** One arrow: [arrowN = ConnectionPatch(xyA, xyB, ..., fc=colors['border'])],
    [ax.add_patch(arrowN)]. *)
Definition draw_arrow (ax : Axes) (xyA xyB : point) : M Axes :=
  fc <- getkey colors "border" ;;
  ret (Ax.add_patch ax (connection xyA xyB fc)).

Section Drawing.

Local Open Scope float_scope.

(** [label_en if language == 'en' else label_zh]. *)
Definition if_en (language label_en label_zh : string) : string :=
  if String.eqb language "en" then label_en else label_zh.

Definition create_fido2_workflow_diagram (h : Host) (language : string) : M Figure :=
  (* Setup font for Chinese *)
  (if String.eqb language "zh" then setup_chinese_font h ;; ret tt else ret tt) ;;
  (* Set up the figure *)
  fig <- plt_subplots (20, 16) ;;
  let ax := fig_axes fig in
  let ax := Ax.set_xlim ax 0 12 in
  let ax := Ax.set_ylim ax 0 16 in
  let ax := Ax.axis_off ax in
  (* Define text based on language *)
  let '(title, steps) := resolve_text language in
  (* Draw title *)
  let ax := Ax.text ax (heading 6 15.5 title 18 None) in
  let y_start := 14 in
  let step_height := 0.7 in
  (* Phase 1: Initialization (Steps 1-3) *)
  border <- getkey colors "border" ;;
  let ax := Ax.text ax (heading 2 (y_start + 0.5)
              (if_en language "Phase 1: Device Initialization" "第一阶段：设备初始化")
              12 (Some border)) in
  ax <- for_fold (seq 0 3) ax (fun ax i =>
          let y := y_start - py_float i * step_height in
          draw_step ax 0.5 y "init" 2 (getitem steps i) 9) ;;
  (* Phase 2: Credential Registration Start (Step 4) *)
  border <- getkey colors "border" ;;
  let ax := Ax.text ax (heading 6 (y_start + 0.5)
              (if_en language "Phase 2: Credential Registration" "第二阶段：凭据注册")
              12 (Some border)) in
  let y := y_start in
  ax <- draw_step ax 4.5 y "registration" 6 (getitem steps 3) 9 ;;
  (* Phase 3: PIN Support Check (Step 5) *)
  let y := y_start - step_height in
  ax <- draw_step ax 4.5 y "registration" 6 (getitem steps 4) 9 ;;
  (* PIN Decision Branch *)
  let y_pin := y_start - 2 * step_height in
  let ax := Ax.text ax (heading 6 y_pin
              (if_en language "PIN Support Decision" "PIN支持决策") 10 None) in
  (* PIN Not Set Branch (Step 6) *)
  let y_pin_not_set := y_pin - step_height in
  ax <- draw_step ax 1.5 y_pin_not_set "error" 3 (getitem steps 5) 8 ;;
  (* PIN Setup Process (Steps 7-10) *)
  let pin_setup_steps := slice steps 6 10 in
  ax <- for_fold (enumerate pin_setup_steps) ax (fun ax '(i, step) =>
          let y := y_pin_not_set - py_float (i + 1) * step_height in
          draw_step ax 7.5 y "pin_setup" 9 (ret step) 8) ;;
  (* PIN Setup Complete (Step 11) *)
  let y_pin_complete := y_pin_not_set - 5 * step_height in
  ax <- draw_step ax 4.5 y_pin_complete "pin_setup" 6 (getitem steps 10) 8 ;;
  (* PIN Validation (Step 12) *)
  let y_pin_validation := y_pin_complete - step_height in
  ax <- draw_step ax 4.5 y_pin_validation "registration" 6 (getitem steps 11) 8 ;;
  (* User Authentication (Step 13) *)
  let y_user_auth := y_pin_validation - step_height in
  ax <- draw_step ax 4.5 y_user_auth "registration" 6 (getitem steps 12) 8 ;;
  (* Credential Creation (Step 14) *)
  let y_cred_creation := y_user_auth - step_height in
  ax <- draw_step ax 4.5 y_cred_creation "success" 6 (getitem steps 13) 8 ;;
  (* Phase 3: Authentication (Steps 15-18) *)
  border <- getkey colors "border" ;;
  let ax := Ax.text ax (heading 9 (y_start + 0.5)
              (if_en language "Phase 3: Authentication" "第三阶段：身份验证")
              12 (Some border)) in
  (* Authentication Request (Step 15) *)
  let y_auth_start := y_start in
  ax <- draw_step ax 8.5 y_auth_start "auth" 10 (getitem steps 14) 8 ;;
  (* Credential Lookup Decision *)
  let y_lookup := y_auth_start - step_height in
  let ax := Ax.text ax (heading 10 y_lookup
              (if_en language "Credential Lookup" "凭据查找") 10 None) in
  (* Credential Not Found (Step 16) *)
  let y_not_found := y_lookup - step_height in
  ax <- draw_step ax 6.5 y_not_found "error" 8 (getitem steps 15) 8 ;;
  (* Credential Found - Success Path (Steps 17-18) *)
  let success_steps := slice steps 16 18 in
  ax <- for_fold (enumerate success_steps) ax (fun ax '(i, step) =>
          let y := y_not_found - py_float (i + 1) * step_height in
          draw_step ax 10.5 y "success" 12 (ret step) 8) ;;
  (* Add arrows to show proper flow *)
  (* arrow1: Step 3 to Step 4 *)
  ax <- draw_arrow ax (3.5, y_start - 1.5) (4.5, y_start) ;;
  (* arrow2: Step 14 to Step 15 *)
  ax <- draw_arrow ax (7.5, y_cred_creation) (8.5, y_auth_start) ;;
  (* arrow3: Step 4 to Step 5 *)
  ax <- draw_arrow ax (6, y_start - 0.25) (6, y_start - step_height + 0.25) ;;
  (* arrow4: Step 5 to PIN decision *)
  ax <- draw_arrow ax (6, y_start - 2 * step_height - 0.25) (6, y_pin + 0.25) ;;
  (* arrow5: PIN decision to PIN not set (Step 6) *)
  ax <- draw_arrow ax (4.5, y_pin) (3, y_pin_not_set) ;;
  (* arrow6: PIN not set to PIN setup process (Step 6 to Step 7) *)
  ax <- draw_arrow ax (3, y_pin_not_set - 0.25)
                      (7.5, y_pin_not_set - step_height + 0.25) ;;
  (* arrow7: PIN setup process to PIN complete (Step 10 to Step 11) *)
  ax <- draw_arrow ax (9, y_pin_not_set - 5 * step_height + 0.25)
                      (6, y_pin_complete - 0.25) ;;
  (* arrow8: Step 11 to Step 12 *)
  ax <- draw_arrow ax (6, y_pin_complete - 0.25) (6, y_pin_validation + 0.25) ;;
  (* arrow9: Step 12 to Step 13 *)
  ax <- draw_arrow ax (6, y_pin_validation - 0.25) (6, y_user_auth + 0.25) ;;
  (* arrow10: Step 13 to Step 14 *)
  ax <- draw_arrow ax (6, y_user_auth - 0.25) (6, y_cred_creation + 0.25) ;;
  (* arrow11: credential lookup to credential not found (Step 15 to Step 16) *)
  ax <- draw_arrow ax (8.5, y_lookup) (8, y_not_found) ;;
  (* arrow12: credential not found to success path (Step 16 to Step 17) *)
  ax <- draw_arrow ax (8, y_not_found - 0.25)
                      (10.5, y_not_found - step_height + 0.25) ;;
  (* arrow13: Step 17 to Step 18 *)
  ax <- draw_arrow ax (12, y_not_found - step_height - 0.25)
                      (12, y_not_found - 2 * step_height + 0.25) ;;
  (* Add legend *)
  c_init <- getkey colors "init" ;;
  c_registration <- getkey colors "registration" ;;
  c_pin_setup <- getkey colors "pin_setup" ;;
  c_auth <- getkey colors "auth" ;;
  c_success <- getkey colors "success" ;;
  c_error <- getkey colors "error" ;;
  let legend_elements :=
    [ {| patch_color := c_init; patch_label := if_en language "Initialization" "初始化" |};
      {| patch_color := c_registration; patch_label := if_en language "Registration" "注册" |};
      {| patch_color := c_pin_setup; patch_label := if_en language "PIN Setup" "PIN设置" |};
      {| patch_color := c_auth; patch_label := if_en language "Authentication" "认证" |};
      {| patch_color := c_success; patch_label := if_en language "Success" "成功" |};
      {| patch_color := c_error; patch_label := if_en language "Error" "错误" |} ] in
  let ax := Ax.legend ax {| legend_handles := legend_elements; legend_loc := "upper right";
                            legend_bbox_to_anchor := (0.98, 0.98) |} in
  ret (plt_tight_layout (with_axes fig ax)).

End Drawing.

(** ** [save_diagram] and [main] *)

(** [save_diagram(fig, filename, dpi=300)]. *)
Definition save_diagram (fig : Figure) (filename : string) (dpi : Z) : M unit :=
  fig_savefig fig filename dpi "tight" "white" ;;
  print ("Diagram saved as " +:+ filename).

(** The default value of the parameter [dpi] of [save_diagram], which [main]
    relies on. *)
Definition save_diagram_dpi : Z := 300.

Definition main (h : Host) : M unit :=
  (* Create output directory if it doesn't exist *)
  os_makedirs "images" true ;;
  (* Generate English diagram *)
  print "Generating English FIDO2 workflow diagram..." ;;
  fig_en <- create_fido2_workflow_diagram h "en" ;;
  save_diagram fig_en "images/fido2_workflow_en.png" save_diagram_dpi ;;
  plt_close fig_en ;;
  (* Generate Chinese diagram *)
  print "Generating Chinese FIDO2 workflow diagram..." ;;
  fig_zh <- create_fido2_workflow_diagram h "zh" ;;
  save_diagram fig_zh "images/fido2_workflow_zh.png" save_diagram_dpi ;;
  plt_close fig_zh ;;
  print "All diagrams generated successfully!".

(** ** A concrete host and process, for examples *)

Definition linux_host : Host :=
  {| platform_system := "Linux";
     addfont_error := fun _ => None;
     fm_has_rcParams := true;
     findfont := fun family => Some ("/usr/share/fonts/" +:+ family +:+ ".ttf") |}.

Definition fresh_process : Process :=
  {| rcParams := {| font_sans_serif := ["DejaVu Sans"; "Arial"; "Helvetica"];
                    axes_unicode_minus := true |};
     fontManager := [];
     open_figures := 0;
     stdout := [];
     dirs := ∅;
     files := ∅ |}.

(** * Vocabulary of the specification *)

(** The boxes and the arrows of a figure, in drawing order. *)
Definition boxes (fig : Figure) : list FancyBboxPatch :=
  flat_map (fun a => match a with Box b => [b] | Arrow _ => [] end)
    (ax_patches (fig_axes fig)).

Definition arrows (fig : Figure) : list ConnectionPatch :=
  flat_map (fun a => match a with Arrow c => [c] | Box _ => [] end)
    (ax_patches (fig_axes fig)).

Definition endpoints (c : ConnectionPatch) : point * point := (arrow_xyA c, arrow_xyB c).

Section Geometry.

Local Open Scope float_scope.

(** A box extends from its lower left corner [(x, y)] to
    [(x + width, y + height)]. *)
Definition left_top (b : FancyBboxPatch) : point := (box_x b, box_y b + box_height b).
Definition right_bottom (b : FancyBboxPatch) : point := (box_x b + box_width b, box_y b).
Definition bottom_center (b : FancyBboxPatch) : point :=
  (box_x b + box_width b / 2, box_y b).

(** The point [pt] lies in the closed extent of [b]. *)
Definition point_in_box (pt : point) (b : FancyBboxPatch) : bool :=
  ((box_x b <=? fst pt) && (fst pt <=? box_x b + box_width b)
   && (box_y b <=? snd pt) && (snd pt <=? box_y b + box_height b))%bool.

(** The extents of [a] and [b] share a region of positive area. *)
Definition boxes_overlap (a b : FancyBboxPatch) : bool :=
  ((box_x a <? box_x b + box_width b) && (box_x b <? box_x a + box_width a)
   && (box_y a <? box_y b + box_height b) && (box_y b <? box_y a + box_height a))%bool.

(** The extent of [b] lies within the limits of the axes. *)
Definition box_in_canvas (ax : Axes) (b : FancyBboxPatch) : bool :=
  ((fst (ax_xlim ax) <=? box_x b) && (box_x b + box_width b <=? snd (ax_xlim ax))
   && (fst (ax_ylim ax) <=? box_y b) && (box_y b + box_height b <=? snd (ax_ylim ax)))%bool.

End Geometry.

(** The text artists that show the string [s]. *)
Definition texts_showing (fig : Figure) (s : string) : list Text :=
  filter (fun t => String.eqb (text_s t) s) (ax_texts (fig_axes fig)).

(** The boxes in which the string [s] is rendered: those that contain the
    anchor of a text artist showing [s]. *)
Definition boxes_showing (fig : Figure) (s : string) : list FancyBboxPatch :=
  filter (fun b => existsb (fun t => point_in_box (text_x t, text_y t) b)
                     (texts_showing fig s))
    (boxes fig).

(** No two boxes at different positions of the list overlap. *)
Fixpoint pairwise_disjoint (l : list FancyBboxPatch) : bool :=
  match l with
  | [] => true
  | b :: l' => (forallb (fun b' => negb (boxes_overlap b b')) l' && pairwise_disjoint l')%bool
  end.

(** The strings of the text artists drawn at a font size, in drawing order. *)
Definition labels_of_size (fig : Figure) (fontsize : Z) : list string :=
  map text_s (filter (fun t => Z.eqb (text_fontsize t) fontsize) (ax_texts (fig_axes fig))).

(** The strings of the wrapped text artists (the step texts), in drawing
    order. *)
Definition step_labels (fig : Figure) : list string :=
  map text_s (filter text_wrap (ax_texts (fig_axes fig))).

Definition legend_labels (fig : Figure) : list string :=
  match ax_legend (fig_axes fig) with
  | Some l => map patch_label (legend_handles l)
  | None => []
  end.

(** The figure drawn for a language tag on the example host. *)
Definition rendered (language : string) : option Figure :=
  match create_fido2_workflow_diagram linux_host language fresh_process with
  | Return fig _ => Some fig
  | Raise _ _ => None
  end.

(** The language tag as far as the drawing code can tell: it only compares
    the tag with ['zh'] and with ['en']. *)
Definition tag_class (language : string) : string :=
  if String.eqb language "zh" then "zh"
  else if String.eqb language "en" then "en"
  else "other".

(** The parts of the state that [setup_chinese_font] and
    [create_fido2_workflow_diagram] leave alone. *)
Definition same_files (p p' : Process) : Prop :=
  dirs p' = dirs p /\ files p' = files p.

(** The font configuration text is rendered with. *)
Definition same_fonts (p p' : Process) : Prop :=
  rcParams p' = rcParams p /\ fontManager p' = fontManager p.

(** Two states in which the font lookup of [setup_chinese_font] sees the same
    things. *)
Definition font_equiv (p1 p2 : Process) : Prop :=
  rcParams p1 = rcParams p2 /\ fontManager p1 = fontManager p2 /\
  forall path, In path font_paths ->
    (is_dir path p1 || is_file path p1) = (is_dir path p2 || is_file path p2).

(** What relates the states [q1], [q2] reached from [p1], [p2] while the font
    lookup runs: they see the same fonts, and neither run has touched the
    file system or the open figures. *)
Definition setup_rel (p1 p2 q1 q2 : Process) : Prop :=
  font_equiv q1 q2 /\ same_files p1 q1 /\ same_files p2 q2 /\
  open_figures q1 = open_figures p1 /\ open_figures q2 = open_figures p2.

(** The end points of the arrows, as the arithmetic of the source yields
    them. *)
Definition thirteen_arrows : list (point * point) :=
  [ ((3.5, 12.5), (4.5, 14));
    ((7.5, 6.3), (8.5, 14));
    ((6, 13.75), (6, 13.55));
    ((6, 12.35), (6, 12.85));
    ((4.5, 12.6), (3, 11.9));
    ((3, 11.65), (7.5, 11.450000000000001));
    ((9, 8.65), (6, 8.15));
    ((6, 8.15), (6, 7.95));
    ((6, 7.45), (6, 7.25));
    ((6, 6.75), (6, 6.55));
    ((8.5, 13.3), (8, 12.600000000000001));
    ((8, 12.350000000000001), (10.5, 12.150000000000002));
    ((12, 11.650000000000002), (12, 11.450000000000001)) ]%float.

(** The arrows that start in the extent of [a] and end in the extent of [b]. *)
Definition arrows_between (fig : Figure) (a b : FancyBboxPatch) : list ConnectionPatch :=
  filter (fun c => point_in_box (arrow_xyA c) a && point_in_box (arrow_xyB c) b)
    (arrows fig).

(** There is exactly one arrow from the box of the step at index [i] to the
    box of the step at index [j]; it is the arrow at index [n] in drawing
    order; it starts at the point [origin] of the first box and ends at the
    point [target] of the second. *)
Definition arrow_between_steps (fig : Figure) (steps : list string) (i j n : nat)
    (origin target : FancyBboxPatch -> point) : Prop :=
  exists si sj bi bj a,
    steps !! i = Some si /\ steps !! j = Some sj /\
    boxes_showing fig si = [bi] /\ boxes_showing fig sj = [bj] /\
    arrows_between fig bi bj = [a] /\ arrows fig !! n = Some a /\
    point_eqb (arrow_xyA a) (origin bi) = true /\
    point_eqb (arrow_xyB a) (target bj) = true.

(** The arrow from the box of step 6 ("PIN not set") to the box of step 7
    (the first of the PIN setup sequence), which is [arrow6] of the source. *)
Definition arrow_step6_to_step7 (fig : Figure) (steps : list string)
    (origin target : FancyBboxPatch -> point) : Prop :=
  arrow_between_steps fig steps 5 6 5 origin target.

(** The boxes whose extent is not within the limits of the axes. *)
Definition boxes_off_canvas (fig : Figure) : list FancyBboxPatch :=
  filter (fun b => negb (box_in_canvas (fig_axes fig) b)) (boxes fig).

Definition phase_headings_zh : list string :=
  ["第一阶段：设备初始化"; "第二阶段：凭据注册"; "第三阶段：身份验证"].

Definition decision_labels_zh : list string := ["PIN支持决策"; "凭据查找"].

Definition legend_labels_zh : list string :=
  ["初始化"; "注册"; "PIN设置"; "认证"; "成功"; "错误"].

Definition phase_headings_en : list string :=
  ["Phase 1: Device Initialization"; "Phase 2: Credential Registration";
   "Phase 3: Authentication"].

Definition decision_labels_en : list string := ["PIN Support Decision"; "Credential Lookup"].

Definition legend_labels_en : list string :=
  ["Initialization"; "Registration"; "PIN Setup"; "Authentication"; "Success"; "Error"].

(** The labels of a figure by kind: the title (font size 18), the step texts
    (wrapped), the phase headings (font size 12), the decision labels (bold,
    font size 10) and the legend labels. *)
Definition labels (fig : Figure)
  : list string * list string * list string * list string * list string :=
  (labels_of_size fig 18, step_labels fig, labels_of_size fig 12,
   labels_of_size fig 10, legend_labels fig).

Definition en_path : string := "images/fido2_workflow_en.png".
Definition zh_path : string := "images/fido2_workflow_zh.png".

(** The three statements [main] runs for one language:
    [fig = create_fido2_workflow_diagram(language)],
    [save_diagram(fig, filename)], [plt.close(fig)]. *)
Definition render (h : Host) (language filename : string) : M unit :=
  fig <- create_fido2_workflow_diagram h language ;;
  save_diagram fig filename save_diagram_dpi ;;
  plt_close fig.

(** [main], had it rendered one language only. *)
Definition render_only (h : Host) (language filename : string) : M unit :=
  os_makedirs "images" true ;;
  render h language filename.

(** The state of the file system in which [main] can write its output:
    [images] is a directory or does not exist, and no directory has the name
    of an output file. *)
Definition output_dir_usable (p : Process) : Prop :=
  (is_dir "images" p = true \/ is_file "images" p = false) /\
  is_dir en_path p = false /\ is_dir zh_path p = false.

(** A state that differs from [fresh_process] in what is not font
    configuration. *)
Definition busy_process : Process :=
  set_stdout ["earlier output"] (set_open_figures 2 (set_dirs {[ "images" ]} fresh_process)).

(** C8 as stated: neither invocation changes the font configuration, which
    is the state, outside the canvas and the output file, that rendering
    reads. *)
Definition invocations_share_no_state (h : Host) (p : Process) : Prop :=
  forall language fig q,
    In language ["en"; "zh"] ->
    create_fido2_workflow_diagram h language p = Return fig q ->
    same_fonts p q.

(** ** Vocabulary for the properties beyond the specification *)

(** [os.path.exists(path)] as a function of the state. *)
Definition path_exists (path : string) (p : Process) : bool :=
  is_dir path p || is_file path p.

(** The last line [setup_chinese_font] prints when it gives up. *)
Definition no_font_warning : string :=
  "Warning: No Chinese font found, Chinese text may not display correctly".

(** The name under which a font file is adopted: its base name without the
    extension. *)
Definition font_stem (font_path : string) : string :=
  fst (ntpath.splitext (ntpath.basename font_path)).

(** The two assignments to [plt.rcParams] that adopt the font [name]. *)
Definition adopt_font (name : string) (p : Process) : Process :=
  set_rcParams {| font_sans_serif := name :: font_sans_serif (rcParams p);
                  axes_unicode_minus := false |} p.

(** The lines printed for the font files of [paths] that exist and that
    [addfont] rejects. *)
Definition load_failures (h : Host) (p : Process) (paths : list string) : list string :=
  flat_map (fun path =>
              if path_exists path p then
                match addfont_error h path with
                | Some msg => ["Failed to load font " +:+ path +:+ ": " +:+ msg]
                | None => []
                end
              else [])
    paths.

(** What [setup_chinese_font] never touches. *)
Definition setup_untouched (p q : Process) : Prop :=
  dirs q = dirs p /\ files q = files p /\ open_figures q = open_figures p.

(** The state [q] reached from [p] as long as no font has been adopted. *)
Definition setup_declined (p q : Process) : Prop :=
  rcParams q = rcParams p /\ fontManager q = fontManager p /\
  setup_untouched p q /\ exists lines, stdout q = stdout p ++ lines.

(** The state [q] reached from [p] once a font has been adopted. *)
Definition setup_adopted (p q : Process) : Prop :=
  (exists name, rcParams q = {| font_sans_serif := name :: font_sans_serif (rcParams p);
                                axes_unicode_minus := false |}) /\
  (fontManager q = fontManager p \/
   exists path, In path font_paths /\ fontManager q = fontManager p ++ [path]) /\
  setup_untouched p q /\
  exists lines, stdout q = stdout p ++ lines /\ lines <> [].

(** The centre of the extent of a box. *)
Definition box_center (b : FancyBboxPatch) : point :=
  (box_x b + box_width b / 2, box_y b + box_height b / 2)%float.

(** The numbers (from 1) of the steps whose box contains the point [pt]. *)
Definition steps_at (fig : Figure) (pt : point) : list nat :=
  map (fun ib => S (fst ib))
    (filter (fun ib => point_in_box pt (snd ib)) (enumerate (boxes fig))).

(** For every arrow, the steps whose box contains its start and the steps
    whose box contains its end. *)
Definition arrow_edges (fig : Figure) : list (list nat * list nat) :=
  map (fun a => (steps_at fig (arrow_xyA a), steps_at fig (arrow_xyB a))) (arrows fig).

(** A Windows host on which every font file loads and the font manager has
    its [rcParams] attribute. *)
Definition windows_host : Host :=
  {| platform_system := "Windows";
     addfont_error := fun _ => None;
     fm_has_rcParams := true;
     findfont := fun family => Some ("C:/Windows/Fonts/" +:+ family +:+ ".ttf") |}.

(** A host with a recent matplotlib: fonts are found, but the module
    [matplotlib.font_manager] has no attribute [rcParams]. *)
Definition recent_host : Host :=
  {| platform_system := "Linux";
     addfont_error := fun _ => None;
     fm_has_rcParams := false;
     findfont := fun family => Some ("/usr/share/fonts/" +:+ family +:+ ".ttf") |}.

(** A state in which the second font file of [font_paths] is installed. *)
Definition msyh_process : Process :=
  set_files {[ "C:/Windows/Fonts/msyh.ttc" := OtherFile ]} fresh_process.

(** A state in which [images] is a regular file. *)
Definition images_is_file_process : Process :=
  set_files {[ "images" := OtherFile ]} fresh_process.

(** A state in which a directory has the name of the English output file. *)
Definition en_path_is_dir_process : Process :=
  set_dirs {[ "images"; en_path ]} fresh_process.

(** * Properties *)

(** ** The monad *)

Lemma bind_Return {A B} (c : M A) (k : A -> M B) p a p' :
  c p = Return a p' -> bind c k p = k a p'.
Proof. intros H. unfold bind. now rewrite H. Qed.

(** Two runs of a loop from related states, with a body that keeps them
    related and returns the same value in both, return the same value and end
    in related states. *)
Lemma for_return_rel {A R} (Rel : Process -> Process -> Prop) (l : list A)
    (body : A -> M (option R)) :
  (forall a p1 p2, In a l -> Rel p1 p2 ->
     exists r q1 q2, body a p1 = Return r q1 /\ body a p2 = Return r q2 /\ Rel q1 q2) ->
  forall p1 p2, Rel p1 p2 ->
    exists r q1 q2,
      for_return l body p1 = Return r q1 /\ for_return l body p2 = Return r q2 /\ Rel q1 q2.
Proof.
  induction l as [|a l IH]; intros Hbody p1 p2 Hrel; simpl.
  - exists None, p1, p2. repeat split; assumption.
  - destruct (Hbody a p1 p2 (or_introl eq_refl) Hrel) as (r & q1 & q2 & H1 & H2 & Hq).
    rewrite (bind_Return _ _ _ _ _ H1), (bind_Return _ _ _ _ _ H2).
    destruct r as [v|].
    + exists (Some v), q1, q2. repeat split; assumption.
    + apply IH; [| assumption].
      intros a' r1 r2 Ha'. apply Hbody. now right.
Qed.

(** ** [setup_chinese_font] *)

Lemma setup_rel_start p1 p2 : font_equiv p1 p2 -> setup_rel p1 p2 p1 p2.
Proof. intros H. repeat split; try reflexivity; apply H. Qed.

Ltac setup_rel_solve :=
  match goal with
  | H : setup_rel _ _ _ _ |- _ =>
      destruct H as ((Hrc & Hfm & Hex) & (Hd1 & Hf1) & (Hd2 & Hf2) & Ho1 & Ho2)
  end;
  unfold setup_rel, font_equiv, same_files, is_dir, is_file in *; cbn in *;
  repeat split; try assumption; try congruence.

Lemma setup_chinese_font_rel h p1 p2 :
  font_equiv p1 p2 ->
  exists b q1 q2,
    setup_chinese_font h p1 = Return b q1 /\
    setup_chinese_font h p2 = Return b q2 /\
    setup_rel p1 p2 q1 q2.
Proof.
  intros Heq. unfold setup_chinese_font.
  set (windows := if String.eqb (platform_system h) "Windows" then _ else _).
  (* the loop over the font files *)
  assert (Hwin : exists r q1 q2,
             windows p1 = Return r q1 /\ windows p2 = Return r q2 /\ setup_rel p1 p2 q1 q2).
  { subst windows. destruct (String.eqb (platform_system h) "Windows").
    - apply (for_return_rel (setup_rel p1 p2)); [| now apply setup_rel_start].
      intros a r1 r2 Ha Hrel.
      assert (Hsame : (is_dir a r1 || is_file a r1) = (is_dir a r2 || is_file a r2)).
      { destruct Hrel as ((_ & _ & Hex) & _). now apply Hex. }
      unfold bind, os_path_exists, try_except, fm_addfont.
      rewrite <- Hsame.
      destruct (is_dir a r1 || is_file a r1).
      + destruct (addfont_error h a) as [msg|]; cbn;
          (eexists _, _, _; split; [reflexivity|]; split; [reflexivity|]; setup_rel_solve).
      + eexists _, _, _. split; [reflexivity|]. split; [reflexivity|]. assumption.
    - exists None, p1, p2. split; [reflexivity|]. split; [reflexivity|].
      now apply setup_rel_start. }
  destruct Hwin as (r & q1 & q2 & H1 & H2 & Hrel).
  rewrite (bind_Return _ _ _ _ _ H1), (bind_Return _ _ _ _ _ H2).
  destruct r as [b|].
  - exists b, q1, q2. repeat split; try reflexivity; apply Hrel.
  - (* the loop over the family names *)
    match goal with
    | |- context [for_return chinese_fonts ?body] =>
        destruct (for_return_rel (setup_rel p1 p2) chinese_fonts body) with (p1 := q1) (p2 := q2)
          as (r & s1 & s2 & Hs1 & Hs2 & Hrel'); [| assumption |]
    end.
    + intros a r1 r2 _ Hr.
      unfold try_except, bind, fm_findfont, fm_rcParams_sans_serif.
      destruct (findfont h a) as [path|]; cbn.
      * destruct (fm_has_rcParams h); cbn.
        -- eexists _, _, _. split; [reflexivity|]. split; [reflexivity|].
           setup_rel_solve.
        -- eexists _, _, _. split; [reflexivity|]. split; [reflexivity|]. assumption.
      * eexists _, _, _. split; [reflexivity|]. split; [reflexivity|]. assumption.
    + rewrite (bind_Return _ _ _ _ _ Hs1), (bind_Return _ _ _ _ _ Hs2).
      destruct r as [b|].
      * exists b, s1, s2. repeat split; try reflexivity; apply Hrel'.
      * unfold bind, print, ret. eexists _, _, _.
        split; [reflexivity|]. split; [reflexivity|]. setup_rel_solve.
Qed.

(** ** [create_fido2_workflow_diagram] *)

(** The call always returns a figure; the figure depends on the language tag
    only, and only through its comparisons with ['zh'] and ['en']; the call
    opens one figure, leaves the file system alone, and changes the font
    configuration and the standard output only for ['zh']. *)
Lemma create_rel h language p1 p2 :
  font_equiv p1 p2 ->
  exists fig q1 q2,
    create_fido2_workflow_diagram h language p1 = Return fig q1 /\
    create_fido2_workflow_diagram h language p2 = Return fig q2 /\
    rendered (tag_class language) = Some fig /\
    font_equiv q1 q2 /\ same_files p1 q1 /\ same_files p2 q2 /\
    open_figures q1 = S (open_figures p1) /\ open_figures q2 = S (open_figures p2) /\
    (String.eqb language "zh" = false ->
       q1 = set_open_figures (S (open_figures p1)) p1 /\
       q2 = set_open_figures (S (open_figures p2)) p2).
Proof.
  intros Heq.
  unfold create_fido2_workflow_diagram, resolve_text, if_en, tag_class.
  destruct (String.eqb language "zh") eqn:Ezh.
  - apply String.eqb_eq in Ezh. subst language.
    destruct (setup_chinese_font_rel h p1 p2 Heq) as (b & q1 & q2 & H1 & H2 & Hrel).
    cbv beta iota.
    assert (H1' : (setup_chinese_font h ;; ret tt) p1 = Return tt q1)
      by (unfold bind; now rewrite H1).
    assert (H2' : (setup_chinese_font h ;; ret tt) p2 = Return tt q2)
      by (unfold bind; now rewrite H2).
    eexists _, (set_open_figures (S (open_figures q1)) q1),
      (set_open_figures (S (open_figures q2)) q2).
    split; [rewrite (bind_Return _ _ _ _ _ H1'); vm_compute; reflexivity|].
    split; [rewrite (bind_Return _ _ _ _ _ H2'); vm_compute; reflexivity|].
    split; [vm_compute; reflexivity|].
    split; [|split; [|split; [|split; [|split; [|discriminate]]]]]; setup_rel_solve.
  - assert (Hstart : forall p : Process, ret tt p = Return tt p) by reflexivity.
    destruct Heq as (Hrc & Hfm & Hex).
    destruct (String.eqb language "en") eqn:Een; cbv beta iota;
      (eexists _, (set_open_figures (S (open_figures p1)) p1),
         (set_open_figures (S (open_figures p2)) p2);
       split; [rewrite (bind_Return _ _ _ _ _ (Hstart p1)); vm_compute; reflexivity|];
       split; [rewrite (bind_Return _ _ _ _ _ (Hstart p2)); vm_compute; reflexivity|];
       split; [vm_compute; reflexivity|];
       unfold font_equiv, same_files, set_open_figures, is_dir, is_file; cbn;
       repeat split; try assumption; try reflexivity).
Qed.

Lemma font_equiv_refl p : font_equiv p p.
Proof. repeat split. Qed.

Lemma create_spec h language p :
  exists fig q,
    create_fido2_workflow_diagram h language p = Return fig q /\
    rendered (tag_class language) = Some fig /\
    same_files p q /\
    open_figures q = S (open_figures p) /\
    (String.eqb language "zh" = false -> q = set_open_figures (S (open_figures p)) p).
Proof.
  destruct (create_rel h language p p (font_equiv_refl p))
    as (fig & q & q' & H1 & H2 & Hr & _ & Hf & _ & Ho & _ & Hen).
  exists fig, q. repeat split; try assumption; try apply Hf.
  intros E. now apply Hen.
Qed.

Lemma tag_class_cases language :
  tag_class language = "zh" \/ tag_class language = "en" \/ tag_class language = "other".
Proof.
  unfold tag_class.
  destruct (String.eqb language "zh"); [now left|].
  destruct (String.eqb language "en"); [right; now left | right; now right].
Qed.

Lemma tag_class_other language :
  language <> "en" -> language <> "zh" -> tag_class language = "other".
Proof.
  intros Hen Hzh. unfold tag_class.
  destruct (String.eqb_spec language "zh"); [contradiction|].
  destruct (String.eqb_spec language "en"); [contradiction|reflexivity].
Qed.

Lemma resolve_text_class language :
  resolve_text language = resolve_text (tag_class language).
Proof.
  unfold resolve_text, tag_class.
  destruct (String.eqb language "zh"); [reflexivity|].
  destruct (String.eqb language "en"); reflexivity.
Qed.

(** Replace the figure [fig] of a hypothesis [H : rendered tag = Some fig],
    for a literal [tag], by its value. *)
Ltac evaluate_rendered H :=
  vm_compute in H; injection H as <-.

(** [pairwise_disjoint] in terms of positions. *)
Lemma boxes_overlap_sym a b : boxes_overlap a b = boxes_overlap b a.
Proof.
  unfold boxes_overlap.
  destruct (box_x a <? box_x b + box_width b)%float,
           (box_x b <? box_x a + box_width a)%float,
           (box_y a <? box_y b + box_height b)%float,
           (box_y b <? box_y a + box_height a)%float; reflexivity.
Qed.

Lemma pairwise_disjoint_lt (l : list FancyBboxPatch) :
  pairwise_disjoint l = true ->
  forall (i j : nat) a b, (i < j)%nat -> l !! i = Some a -> l !! j = Some b ->
    boxes_overlap a b = false.
Proof.
  induction l as [|c l IH]; intros Hl i j a b Hij Ha Hb.
  - destruct i; discriminate.
  - simpl in Hl. apply andb_prop in Hl as [Hc Hl].
    destruct j as [|j]; [lia|]. simpl in Hb.
    destruct i as [|i]; simpl in Ha.
    + injection Ha as ->.
      rewrite forallb_forall in Hc.
      apply negb_true_iff, Hc.
      apply list_elem_of_In, list_elem_of_lookup. now exists j.
    + apply (IH Hl i j); [lia | assumption | assumption].
Qed.

Lemma pairwise_disjoint_spec (l : list FancyBboxPatch) :
  pairwise_disjoint l = true ->
  forall (i j : nat) a b, i <> j -> l !! i = Some a -> l !! j = Some b ->
    boxes_overlap a b = false.
Proof.
  intros Hl i j a b Hij Ha Hb.
  destruct (Nat.lt_total i j) as [Hlt|[Heq|Hgt]]; [| contradiction |].
  - now apply (pairwise_disjoint_lt l Hl i j).
  - rewrite boxes_overlap_sym. now apply (pairwise_disjoint_lt l Hl j i).
Qed.

(** * The statements of the specification *)

(** ** Step texts and boxes *)

(** C1. For each of the two supported language tags, ['en'] and ['zh'], the
    call returns a figure; the list of step texts it resolves has exactly 18
    entries; the figure has 18 boxes; the wrapped texts it draws are these 18
    entries in order; and every entry is shown by exactly one text artist,
    whose anchor lies in exactly one box. *)
Theorem C1_eighteen_steps_one_box_each (h : Host) (p : Process) :
  Forall (fun language =>
    exists fig q,
      create_fido2_workflow_diagram h language p = Return fig q /\
      let steps := snd (resolve_text language) in
      length steps = 18%nat /\
      length (boxes fig) = 18%nat /\
      step_labels fig = steps /\
      Forall (fun s => length (texts_showing fig s) = 1%nat /\
                       length (boxes_showing fig s) = 1%nat) steps)
    ["en"; "zh"].
Proof.
  constructor; [|constructor; [|constructor]].
  - destruct (create_spec h "en" p) as (fig & q & Hc & Hr & _).
    exists fig, q. split; [exact Hc|].
    change (tag_class "en") with "en" in Hr. evaluate_rendered Hr.
    cbv zeta. change (snd (resolve_text "en")) with steps_en.
    do 3 (split; [vm_compute; reflexivity|]).
    unfold steps_en. repeat constructor.
  - destruct (create_spec h "zh" p) as (fig & q & Hc & Hr & _).
    exists fig, q. split; [exact Hc|].
    change (tag_class "zh") with "zh" in Hr. evaluate_rendered Hr.
    cbv zeta. change (snd (resolve_text "zh")) with steps_zh.
    do 3 (split; [vm_compute; reflexivity|]).
    unfold steps_zh. repeat constructor.
Qed.

(** C9. With ['en'] the fourth step text is the ordinal "4. " followed by
    "Client requests MakeCredential", and with ['zh'] it is the ordinal
    followed by the Chinese sentence "客户端请求MakeCredential"; in both cases
    it is the fourth wrapped text drawn, at the centre [(6, 14)] of exactly
    one box. *)
Theorem C9_step_four_text (h : Host) (p : Process) :
  Forall (fun '(language, sentence) =>
    exists fig q,
      create_fido2_workflow_diagram h language p = Return fig q /\
      snd (resolve_text language) !! 3%nat = Some ("4. " +:+ sentence) /\
      step_labels fig !! 3%nat = Some ("4. " +:+ sentence) /\
      texts_showing fig ("4. " +:+ sentence) = [step_text 6 14 ("4. " +:+ sentence) 9] /\
      length (boxes_showing fig ("4. " +:+ sentence)) = 1%nat)
    [("en", "Client requests MakeCredential"); ("zh", "客户端请求MakeCredential")].
Proof.
  constructor; [|constructor; [|constructor]].
  - destruct (create_spec h "en" p) as (fig & q & Hc & Hr & _).
    exists fig, q. split; [exact Hc|].
    change (tag_class "en") with "en" in Hr. evaluate_rendered Hr.
    repeat split; vm_compute; reflexivity.
  - destruct (create_spec h "zh" p) as (fig & q & Hc & Hr & _).
    exists fig, q. split; [exact Hc|].
    change (tag_class "zh") with "zh" in Hr. evaluate_rendered Hr.
    repeat split; vm_compute; reflexivity.
Qed.

(** ** Arrows *)

(** C5. Whatever the language tag, the host and the state, the call draws
    exactly 13 arrows, and they connect the same 13 pairs of points. *)
Theorem C5_thirteen_fixed_arrows (h : Host) (language : string) (p : Process) :
  exists fig q,
    create_fido2_workflow_diagram h language p = Return fig q /\
    length (arrows fig) = 13%nat /\
    map endpoints (arrows fig) = thirteen_arrows.
Proof.
  destruct (create_spec h language p) as (fig & q & Hc & Hr & _).
  exists fig, q. split; [exact Hc|].
  destruct (tag_class_cases language) as [E|[E|E]]; rewrite E in Hr;
    evaluate_rendered Hr; vm_compute; split; reflexivity.
Qed.

(** C3, as stated, fails: in the English diagram the arrow from the box of
    step 6 to the box of step 7 does not start at the right-bottom corner
    [(4.5, 11.65)] of the box of step 6. *)
Lemma C3_arrow_not_from_right_bottom :
  exists fig q,
    create_fido2_workflow_diagram linux_host "en" fresh_process = Return fig q /\
    ~ arrow_step6_to_step7 fig (snd (resolve_text "en")) right_bottom left_top.
Proof.
  destruct (create_spec linux_host "en" fresh_process) as (fig & q & Hc & Hr & _).
  exists fig, q. split; [exact Hc|].
  change (tag_class "en") with "en" in Hr. evaluate_rendered Hr.
  intros (s6 & s7 & b6 & b7 & a & H6 & _ & Hb6 & _ & _ & Ha & HA & _).
  vm_compute in H6. injection H6 as <-.
  vm_compute in Hb6. injection Hb6 as <-.
  vm_compute in Ha. injection Ha as <-.
  vm_compute in HA. discriminate HA.
Qed.

(** C3, amended. Whatever the language tag, the arrow from the box of step 6
    to the box of step 7 starts at the middle of the bottom edge of the box of
    step 6, [(3, 11.65)], and ends at the left-top corner of the box of
    step 7. *)
Theorem C3_arrow_from_bottom_center_to_left_top (h : Host) (language : string) (p : Process) :
  exists fig q,
    create_fido2_workflow_diagram h language p = Return fig q /\
    arrow_step6_to_step7 fig (snd (resolve_text language)) bottom_center left_top.
Proof.
  destruct (create_spec h language p) as (fig & q & Hc & Hr & _).
  exists fig, q. split; [exact Hc|].
  rewrite resolve_text_class. unfold arrow_step6_to_step7, arrow_between_steps.
  destruct (tag_class_cases language) as [E|[E|E]]; rewrite E in *;
    evaluate_rendered Hr;
    (eexists _, _, _, _, _; repeat split; vm_compute; reflexivity).
Qed.

(** The other arrow that leaves a box sideways, [arrow12] from the box of
    step 16 to the box of step 17, is anchored the same way. *)
Lemma arrow_step16_to_step17 (h : Host) (language : string) (p : Process) :
  exists fig q,
    create_fido2_workflow_diagram h language p = Return fig q /\
    arrow_between_steps fig (snd (resolve_text language)) 15 16 11 bottom_center left_top.
Proof.
  destruct (create_spec h language p) as (fig & q & Hc & Hr & _).
  exists fig, q. split; [exact Hc|].
  rewrite resolve_text_class. unfold arrow_between_steps.
  destruct (tag_class_cases language) as [E|[E|E]]; rewrite E in *;
    evaluate_rendered Hr;
    (eexists _, _, _, _, _; repeat split; vm_compute; reflexivity).
Qed.

(** ** Layout *)

(** C4, on the code. Whatever the language tag, the axes span [0, 12] by
    [0, 16]; no two of the 18 boxes overlap; 16 boxes lie within the axes; the
    boxes of steps 17 and 18 do not: they span [x] from 10.5 to 13.5, beyond
    the right limit 12. *)
Theorem C4_boxes_disjoint_two_off_canvas (h : Host) (language : string) (p : Process) :
  exists fig q,
    create_fido2_workflow_diagram h language p = Return fig q /\
    ax_xlim (fig_axes fig) = (0, 12)%float /\
    ax_ylim (fig_axes fig) = (0, 16)%float /\
    pairwise_disjoint (boxes fig) = true /\
    exists s17 s18 b17 b18,
      snd (resolve_text language) !! 16%nat = Some s17 /\
      snd (resolve_text language) !! 17%nat = Some s18 /\
      boxes_showing fig s17 = [b17] /\
      boxes_showing fig s18 = [b18] /\
      boxes_off_canvas fig = [b17; b18] /\
      map (fun b => (box_x b, fst (right_bottom b))) [b17; b18]
        = [(10.5, 13.5); (10.5, 13.5)]%float.
Proof.
  destruct (create_spec h language p) as (fig & q & Hc & Hr & _).
  exists fig, q. split; [exact Hc|].
  rewrite resolve_text_class.
  destruct (tag_class_cases language) as [E|[E|E]]; rewrite E in *;
    evaluate_rendered Hr;
    (do 3 (split; [vm_compute; reflexivity|]);
     eexists _, _, _, _; repeat split; vm_compute; reflexivity).
Qed.

(** The boxes of steps 7 and 18 are the closest pair: they are at the same
    height, and the right edge of the first is the left edge of the second,
    [x = 10.5]. *)
Lemma boxes_step7_step18_touch (h : Host) (language : string) (p : Process) :
  exists fig q b7 b18,
    create_fido2_workflow_diagram h language p = Return fig q /\
    boxes fig !! 6%nat = Some b7 /\ boxes fig !! 17%nat = Some b18 /\
    point_eqb (right_bottom b7) (box_x b18, box_y b18) = true /\
    boxes_overlap b7 b18 = false.
Proof.
  destruct (create_spec h language p) as (fig & q & Hc & Hr & _).
  exists fig, q.
  destruct (tag_class_cases language) as [E|[E|E]]; rewrite E in *;
    evaluate_rendered Hr;
    (eexists _, _; split; [exact Hc|]; repeat split; vm_compute; reflexivity).
Qed.

(** ** Unsupported language tags *)

(** C2, on the code. With the tag ['fr'] the call raises nothing; the title
    and the 18 step texts are the English ones, but the phase headings, the
    decision labels and the legend labels are the Chinese ones, whereas the
    English diagram has the English ones. *)
Theorem C2_unsupported_tag_mixes_languages :
  exists fig q fig_en,
    create_fido2_workflow_diagram linux_host "fr" fresh_process = Return fig q /\
    rendered "en" = Some fig_en /\
    labels fig_en = ([title_en], steps_en, phase_headings_en, decision_labels_en,
                     legend_labels_en) /\
    labels fig = ([title_en], steps_en, phase_headings_zh, decision_labels_zh,
                  legend_labels_zh).
Proof.
  destruct (create_spec linux_host "fr" fresh_process) as (fig & q & Hc & Hr & _).
  change (tag_class "fr") with "other" in Hr.
  eexists fig, q, _. split; [exact Hc|].
  evaluate_rendered Hr.
  repeat split; vm_compute; reflexivity.
Qed.

(** C10. For every language tag other than ['en'] and ['zh'] the title and the
    18 step texts are the English ones, while the three phase headings, the
    two decision labels and the six legend labels are the Chinese ones (those
    of the diagram for ['zh']). *)
Theorem C10_fallback_inconsistent (h : Host) (language : string) (p : Process) :
  language <> "en" -> language <> "zh" ->
  exists fig q fig_en fig_zh,
    create_fido2_workflow_diagram h language p = Return fig q /\
    rendered "en" = Some fig_en /\
    rendered "zh" = Some fig_zh /\
    resolve_text language = (title_en, steps_en) /\
    labels fig = ([title_en], steps_en, phase_headings_zh, decision_labels_zh,
                  legend_labels_zh) /\
    labels_of_size fig 18 = labels_of_size fig_en 18 /\
    step_labels fig = step_labels fig_en /\
    labels_of_size fig 12 = labels_of_size fig_zh 12 /\
    labels_of_size fig 10 = labels_of_size fig_zh 10 /\
    legend_labels fig = legend_labels fig_zh.
Proof.
  intros Hen Hzh.
  destruct (create_spec h language p) as (fig & q & Hc & Hr & _).
  rewrite (tag_class_other language Hen Hzh) in Hr.
  eexists fig, q, _, _. split; [exact Hc|].
  evaluate_rendered Hr.
  split; [vm_compute; reflexivity|].
  split; [vm_compute; reflexivity|].
  split.
  { rewrite resolve_text_class, (tag_class_other language Hen Hzh). reflexivity. }
  repeat split; vm_compute; reflexivity.
Qed.

(** The statement of C10 at the tag ['fr'] on the example host. *)
Lemma C10_fallback_inconsistent_witness :
  "fr" <> "en" /\ "fr" <> "zh" /\
  exists fig q fig_en fig_zh,
    create_fido2_workflow_diagram linux_host "fr" fresh_process = Return fig q /\
    rendered "en" = Some fig_en /\
    rendered "zh" = Some fig_zh /\
    resolve_text "fr" = (title_en, steps_en) /\
    labels fig = ([title_en], steps_en, phase_headings_zh, decision_labels_zh,
                  legend_labels_zh) /\
    labels_of_size fig 18 = labels_of_size fig_en 18 /\
    step_labels fig = step_labels fig_en /\
    labels_of_size fig 12 = labels_of_size fig_zh 12 /\
    labels_of_size fig 10 = labels_of_size fig_zh 10 /\
    legend_labels fig = legend_labels fig_zh.
Proof.
  split; [discriminate|]. split; [discriminate|].
  apply (C10_fallback_inconsistent linux_host "fr" fresh_process); discriminate.
Defined.

(** ** Saving and [main] *)

Lemma bind_assoc {A B C} (c : M A) (k1 : A -> M B) (k2 : B -> M C) p :
  bind (bind c k1) k2 p = bind c (fun a => bind (k1 a) k2) p.
Proof. unfold bind. destruct (c p); reflexivity. Qed.

Lemma bind_ext {A B} (c : M A) (k1 k2 : A -> M B) p :
  (forall a q, k1 a q = k2 a q) -> bind c k1 p = bind c k2 p.
Proof. intros H. unfold bind. destruct (c p); [apply H | reflexivity]. Qed.

(** [main] is the sequence of its two rendering blocks. *)
Lemma main_blocks h p :
  main h p =
  (os_makedirs "images" true ;;
   print "Generating English FIDO2 workflow diagram..." ;;
   render h "en" en_path ;;
   print "Generating Chinese FIDO2 workflow diagram..." ;;
   render h "zh" zh_path ;;
   print "All diagrams generated successfully!") p.
Proof.
  unfold main, render.
  apply bind_ext; intros _ p1. apply bind_ext; intros _ p2.
  rewrite bind_assoc. apply bind_ext; intros fig_en p3.
  rewrite bind_assoc. apply bind_ext; intros _ p4.
  apply bind_ext; intros _ p5. apply bind_ext; intros _ p6.
  rewrite bind_assoc. apply bind_ext; intros fig_zh p7.
  rewrite bind_assoc. reflexivity.
Qed.

Lemma os_makedirs_images p :
  is_dir "images" p = true \/ is_file "images" p = false ->
  os_makedirs "images" true p = Return tt (set_dirs ({[ "images" ]} ∪ dirs p) p).
Proof.
  intros H. unfold os_makedirs.
  destruct (is_dir "images" p) eqn:Ed.
  - f_equal. unfold is_dir in Ed. apply bool_decide_eq_true_1 in Ed.
    destruct p as [rc fm o out d f]. unfold set_dirs; cbn in *.
    f_equal. set_solver.
  - destruct H as [H|H]; [discriminate|]. now rewrite H.
Qed.

Lemma is_dir_same_dirs path p q : dirs q = dirs p -> is_dir path q = is_dir path p.
Proof. intros H. unfold is_dir. now rewrite H. Qed.

Lemma is_dir_new path name p q :
  dirs q = {[ name ]} ∪ dirs p -> is_dir path q = (String.eqb path name || is_dir path p).
Proof.
  intros H. unfold is_dir. rewrite H.
  destruct (String.eqb_spec path name) as [->|Hne]; cbn.
  - apply bool_decide_eq_true_2. set_solver.
  - apply bool_decide_ext. set_solver.
Qed.

Lemma fig_savefig_Return fig filename dpi bbox fc p :
  is_dir filename p = false ->
  is_dir (path_dirname filename) p = true ->
  fig_savefig fig filename dpi bbox fc p =
  Return tt (set_files (<[ filename := ImageFile (rasterise fig dpi bbox fc p) ]> (files p)) p).
Proof.
  intros H1 H2. unfold fig_savefig. rewrite H1, H2, orb_true_r. reflexivity.
Qed.

(** After a file has been written, a path exists if it is that file or existed
    before. *)
Lemma exists_after_write path filename (f : File) p q :
  dirs q = dirs p -> files q = <[ filename := f ]> (files p) ->
  (is_dir path q || is_file path q)
  = (String.eqb filename path || (is_dir path p || is_file path p)).
Proof.
  intros Hd Hf. unfold is_dir, is_file. rewrite Hd, Hf.
  destruct (String.eqb_spec filename path) as [->|Hne]; cbn.
  - rewrite lookup_insert_eq. apply orb_true_r.
  - now rewrite lookup_insert_ne.
Qed.

Lemma rasterise_font_equiv fig dpi bbox fc p1 p2 :
  font_equiv p1 p2 -> rasterise fig dpi bbox fc p1 = rasterise fig dpi bbox fc p2.
Proof. intros (Hrc & Hfm & _). unfold rasterise. now rewrite Hrc, Hfm. Qed.

(** One rendering block, run from two states that see the same fonts and in
    which the file can be written: both runs return, write the same image to
    [filename] and nothing else, and end in states that see the same fonts.
    For a tag other than ['zh'] the font configuration is left unchanged. *)
Lemma render_rel h language filename p1 p2 :
  font_equiv p1 p2 ->
  is_dir filename p1 = false -> is_dir (path_dirname filename) p1 = true ->
  is_dir filename p2 = false -> is_dir (path_dirname filename) p2 = true ->
  exists fig img q1 q2,
    render h language filename p1 = Return tt q1 /\
    render h language filename p2 = Return tt q2 /\
    rendered (tag_class language) = Some fig /\
    (img_figure img = fig /\ img_dpi img = 300%Z /\
     img_bbox_inches img = "tight" /\ img_facecolor img = "white") /\
    files q1 = <[ filename := ImageFile img ]> (files p1) /\
    files q2 = <[ filename := ImageFile img ]> (files p2) /\
    dirs q1 = dirs p1 /\ dirs q2 = dirs p2 /\
    font_equiv q1 q2 /\
    (String.eqb language "zh" = false -> same_fonts p1 q1 /\ same_fonts p2 q2).
Proof.
  intros Heq Hf1 Hd1 Hf2 Hd2.
  destruct (create_rel h language p1 p2 Heq)
    as (fig & r1 & r2 & Hc1 & Hc2 & Hr & Heq' & (Hdr1 & Hfr1) & (Hdr2 & Hfr2) & _ & _ & Hen).
  pose proof (fig_savefig_Return fig filename save_diagram_dpi "tight" "white" r1) as Hs1.
  pose proof (fig_savefig_Return fig filename save_diagram_dpi "tight" "white" r2) as Hs2.
  rewrite !(is_dir_same_dirs _ p1 r1 Hdr1) in Hs1.
  rewrite !(is_dir_same_dirs _ p2 r2 Hdr2) in Hs2.
  specialize (Hs1 Hf1 Hd1). specialize (Hs2 Hf2 Hd2).
  rewrite <- (rasterise_font_equiv fig _ _ _ r1 r2 Heq') in Hs2.
  exists fig, (rasterise fig save_diagram_dpi "tight" "white" r1).
  eexists _, _.
  split.
  { unfold render, save_diagram. rewrite (bind_Return _ _ _ _ _ Hc1).
    unfold bind. rewrite Hs1. reflexivity. }
  split.
  { unfold render, save_diagram. rewrite (bind_Return _ _ _ _ _ Hc2).
    unfold bind. rewrite Hs2. reflexivity. }
  split; [exact Hr|].
  split; [repeat split|].
  cbn. rewrite Hfr1, Hfr2.
  do 4 (split; [reflexivity || assumption|]).
  destruct Heq' as (Hrc & Hfm & Hex).
  split.
  - repeat split; try assumption.
    intros path Hin. unfold is_dir, is_file in *. cbn.
    rewrite Hdr1, Hdr2.
    destruct (String.eqb_spec filename path) as [->|Hne].
    + rewrite !lookup_insert_eq. now rewrite !orb_true_r.
    + rewrite !lookup_insert_ne by assumption.
      specialize (Hex path Hin). now rewrite Hdr1, Hdr2, Hfr1, Hfr2 in Hex.
  - intros E. destruct (Hen E) as [-> ->]. repeat split.
Qed.

(** What one run of [main] leaves behind, from a state in which the output
    can be written, next to what a run for one language only leaves behind:
    the images are the same. *)
Lemma main_rel h p :
  output_dir_usable p ->
  exists q q_en q_zh fig_en fig_zh img_en img_zh,
    main h p = Return tt q /\
    render_only h "en" en_path p = Return tt q_en /\
    render_only h "zh" zh_path p = Return tt q_zh /\
    rendered "en" = Some fig_en /\ rendered "zh" = Some fig_zh /\
    (img_figure img_en = fig_en /\ img_dpi img_en = 300%Z /\
     img_bbox_inches img_en = "tight" /\ img_facecolor img_en = "white") /\
    (img_figure img_zh = fig_zh /\ img_dpi img_zh = 300%Z /\
     img_bbox_inches img_zh = "tight" /\ img_facecolor img_zh = "white") /\
    dirs q = {[ "images" ]} ∪ dirs p /\
    files q = <[ zh_path := ImageFile img_zh ]> (<[ en_path := ImageFile img_en ]> (files p)) /\
    files q_en = <[ en_path := ImageFile img_en ]> (files p) /\
    files q_zh = <[ zh_path := ImageFile img_zh ]> (files p).
Proof.
  intros (Himg & Hen & Hzh).
  rewrite main_blocks. unfold render_only.
  rewrite !(bind_Return _ _ _ _ _ (os_makedirs_images p Himg)).
  remember (set_dirs ({[ "images" ]} ∪ dirs p) p) as p1 eqn:Ep1.
  assert (Hd1 : dirs p1 = {[ "images" ]} ∪ dirs p) by (subst p1; reflexivity).
  assert (Hf1 : files p1 = files p) by (subst p1; reflexivity).
  clear Ep1.
  assert (Hprint : forall s r, print s r = Return tt (set_stdout (stdout r ++ [s]) r))
    by reflexivity.
  rewrite (bind_Return _ _ _ _ _ (Hprint _ p1)).
  remember (set_stdout _ p1) as p2 eqn:Ep2.
  assert (Heq2 : font_equiv p2 p1) by (subst p2; repeat split).
  assert (Hd2 : dirs p2 = {[ "images" ]} ∪ dirs p) by (subst p2; exact Hd1).
  assert (Hf2 : files p2 = files p) by (subst p2; exact Hf1).
  clear Ep2.
  (* the English block *)
  destruct (render_rel h "en" en_path p2 p1 Heq2)
    as (fig_en & img_en & q3 & q_en & Hr3 & Hr_en & Hfig_en & Himg_en & Hf3 & Hf_en
        & Hd3 & _ & Heq3 & Hfonts3).
  { rewrite (is_dir_new _ _ _ _ Hd2), Hen. reflexivity. }
  { rewrite (is_dir_new _ _ _ _ Hd2). reflexivity. }
  { rewrite (is_dir_new _ _ _ _ Hd1), Hen. reflexivity. }
  { rewrite (is_dir_new _ _ _ _ Hd1). reflexivity. }
  destruct (Hfonts3 eq_refl) as ((Hrc3 & Hfm3) & _).
  rewrite (bind_Return _ _ _ _ _ Hr3).
  rewrite (bind_Return _ _ _ _ _ (Hprint _ q3)).
  remember (set_stdout _ q3) as p4 eqn:Ep4.
  assert (Hd4 : dirs p4 = {[ "images" ]} ∪ dirs p) by (subst p4; cbn; now rewrite Hd3).
  assert (Hf4 : files p4 = <[ en_path := ImageFile img_en ]> (files p))
    by (subst p4; cbn; now rewrite Hf3, Hf2).
  assert (Heq4 : font_equiv p4 p1).
  { destruct Heq2 as (Hrc2 & Hfm2 & Hex2).
    split; [subst p4; cbn; congruence|]. split; [subst p4; cbn; congruence|].
    intros path Hin.
    rewrite (exists_after_write path en_path (ImageFile img_en) p2 p4)
      by (rewrite ?Hd4, ?Hd2, ?Hf4, ?Hf2; reflexivity).
    rewrite (Hex2 path Hin).
    repeat (destruct Hin as [<-|Hin]; [reflexivity|]). destruct Hin. }
  clear Ep4.
  (* the Chinese block *)
  destruct (render_rel h "zh" zh_path p4 p1 Heq4)
    as (fig_zh & img_zh & q5 & q_zh & Hr5 & Hr_zh & Hfig_zh & Himg_zh & Hf5 & Hf_zh
        & Hd5 & _).
  { rewrite (is_dir_new _ _ _ _ Hd4), Hzh. reflexivity. }
  { rewrite (is_dir_new _ _ _ _ Hd4). reflexivity. }
  { rewrite (is_dir_new _ _ _ _ Hd1), Hzh. reflexivity. }
  { rewrite (is_dir_new _ _ _ _ Hd1). reflexivity. }
  rewrite (bind_Return _ _ _ _ _ Hr5).
  rewrite (Hprint _ q5).
  exists (set_stdout (stdout q5 ++ ["All diagrams generated successfully!"]) q5),
    q_en, q_zh, fig_en, fig_zh, img_en, img_zh.
  split; [reflexivity|].
  split; [exact Hr_en|]. split; [exact Hr_zh|].
  split; [exact Hfig_en|]. split; [exact Hfig_zh|].
  split; [exact Himg_en|]. split; [exact Himg_zh|].
  split; [cbn; now rewrite Hd5|].
  split; [cbn; now rewrite Hf5, Hf4|].
  split; [now rewrite Hf_en, Hf1 | now rewrite Hf_zh, Hf1].
Qed.

Lemma save_diagram_Return fig filename dpi q r :
  save_diagram fig filename dpi q = Return tt r ->
  files r !! filename = Some (ImageFile (rasterise fig dpi "tight" "white" q)).
Proof.
  unfold save_diagram, bind, fig_savefig, print.
  destruct (is_dir filename q); [discriminate|].
  destruct (negb _); [discriminate|].
  intros H. injection H as <-. cbn. apply lookup_insert_eq.
Qed.

(** C6. From a state in which the output can be written, [main] returns; the
    directories afterwards are those before and [images]; the file
    [images/fido2_workflow_en.png] holds the English diagram and
    [images/fido2_workflow_zh.png] the Chinese one, both saved at 300 DPI with
    a tight bounding box and a white background; every other file is as
    before. *)
Theorem C6_main_writes_two_images (h : Host) (p : Process) :
  output_dir_usable p ->
  exists q fig_en fig_zh img_en img_zh,
    main h p = Return tt q /\
    rendered "en" = Some fig_en /\ rendered "zh" = Some fig_zh /\
    (img_figure img_en = fig_en /\ img_dpi img_en = 300%Z /\
     img_bbox_inches img_en = "tight" /\ img_facecolor img_en = "white") /\
    (img_figure img_zh = fig_zh /\ img_dpi img_zh = 300%Z /\
     img_bbox_inches img_zh = "tight" /\ img_facecolor img_zh = "white") /\
    dirs q = {[ "images" ]} ∪ dirs p /\
    files q !! "images/fido2_workflow_en.png" = Some (ImageFile img_en) /\
    files q !! "images/fido2_workflow_zh.png" = Some (ImageFile img_zh) /\
    (forall path, path <> "images/fido2_workflow_en.png" ->
                  path <> "images/fido2_workflow_zh.png" ->
                  files q !! path = files p !! path).
Proof.
  intros Hp.
  destruct (main_rel h p Hp)
    as (q & _ & _ & fig_en & fig_zh & img_en & img_zh & Hm & _ & _ & Hen & Hzh & Hien & Hizh
        & Hd & Hf & _).
  exists q, fig_en, fig_zh, img_en, img_zh.
  do 6 (split; [assumption|]).
  rewrite Hf. fold en_path zh_path.
  split; [rewrite lookup_insert_ne by discriminate; apply lookup_insert_eq|].
  split; [apply lookup_insert_eq|].
  intros path H1 H2. now rewrite !lookup_insert_ne by congruence.
Qed.

(** The statement of C6 for a run on an empty file system. *)
Lemma C6_main_writes_two_images_witness :
  output_dir_usable fresh_process /\
  exists q fig_en fig_zh img_en img_zh,
    main linux_host fresh_process = Return tt q /\
    rendered "en" = Some fig_en /\ rendered "zh" = Some fig_zh /\
    (img_figure img_en = fig_en /\ img_dpi img_en = 300%Z /\
     img_bbox_inches img_en = "tight" /\ img_facecolor img_en = "white") /\
    (img_figure img_zh = fig_zh /\ img_dpi img_zh = 300%Z /\
     img_bbox_inches img_zh = "tight" /\ img_facecolor img_zh = "white") /\
    dirs q = {[ "images" ]} ∪ dirs fresh_process /\
    files q !! "images/fido2_workflow_en.png" = Some (ImageFile img_en) /\
    files q !! "images/fido2_workflow_zh.png" = Some (ImageFile img_zh) /\
    (forall path, path <> "images/fido2_workflow_en.png" ->
                  path <> "images/fido2_workflow_zh.png" ->
                  files q !! path = files fresh_process !! path).
Proof.
  assert (H : output_dir_usable fresh_process).
  { split; [right; reflexivity|]. split; vm_compute; reflexivity. }
  split; [exact H|].
  exact (C6_main_writes_two_images linux_host fresh_process H).
Defined.

(** ** Determinism and shared state *)

(** C7. Two invocations with the same language tag, from two states of the
    process that see the same fonts (the same [rcParams], the same registered
    fonts, the same font files) and may differ in everything else, both
    return the same figure, rasterise it to the same image, and, when
    [save_diagram] succeeds in both, leave the same file content under
    [filename]. *)
Theorem C7_same_tag_same_image (h : Host) (language filename : string) (p1 p2 : Process) :
  font_equiv p1 p2 ->
  exists fig q1 q2,
    create_fido2_workflow_diagram h language p1 = Return fig q1 /\
    create_fido2_workflow_diagram h language p2 = Return fig q2 /\
    (forall dpi bbox fc, rasterise fig dpi bbox fc q1 = rasterise fig dpi bbox fc q2) /\
    (forall r1 r2,
       save_diagram fig filename save_diagram_dpi q1 = Return tt r1 ->
       save_diagram fig filename save_diagram_dpi q2 = Return tt r2 ->
       files r1 !! filename = files r2 !! filename).
Proof.
  intros Heq.
  destruct (create_rel h language p1 p2 Heq) as (fig & q1 & q2 & H1 & H2 & _ & Heq' & _).
  exists fig, q1, q2. repeat split; try assumption.
  - intros dpi bbox fc. now apply rasterise_font_equiv.
  - intros r1 r2 Hs1 Hs2.
    rewrite (save_diagram_Return _ _ _ _ _ Hs1), (save_diagram_Return _ _ _ _ _ Hs2).
    now rewrite (rasterise_font_equiv _ _ _ _ _ _ Heq').
Qed.

(** The statement of C7 for ['zh'] from [fresh_process] and [busy_process]. *)
Lemma C7_same_tag_same_image_witness :
  font_equiv fresh_process busy_process /\
  exists fig q1 q2,
    create_fido2_workflow_diagram linux_host "zh" fresh_process = Return fig q1 /\
    create_fido2_workflow_diagram linux_host "zh" busy_process = Return fig q2 /\
    (forall dpi bbox fc, rasterise fig dpi bbox fc q1 = rasterise fig dpi bbox fc q2) /\
    (forall r1 r2,
       save_diagram fig zh_path save_diagram_dpi q1 = Return tt r1 ->
       save_diagram fig zh_path save_diagram_dpi q2 = Return tt r2 ->
       files r1 !! zh_path = files r2 !! zh_path).
Proof.
  assert (H : font_equiv fresh_process busy_process).
  { split; [reflexivity|]. split; [reflexivity|].
    intros path Hin.
    repeat (destruct Hin as [<-|Hin]; [vm_compute; reflexivity|]). destruct Hin. }
  split; [exact H|].
  exact (C7_same_tag_same_image linux_host "zh" zh_path fresh_process busy_process H).
Defined.

(** C8, as stated, fails: on the example host the invocation for ['zh']
    changes [rcParams], and the English diagram rasterised after it is not the
    image rasterised without it. *)
Lemma C8_chinese_invocation_changes_fonts :
  ~ invocations_share_no_state linux_host fresh_process /\
  exists fig_zh q_zh fig_en q_en fig_en' q_en',
    create_fido2_workflow_diagram linux_host "zh" fresh_process = Return fig_zh q_zh /\
    create_fido2_workflow_diagram linux_host "en" fresh_process = Return fig_en q_en /\
    create_fido2_workflow_diagram linux_host "en" q_zh = Return fig_en' q_en' /\
    font_sans_serif (rcParams q_zh) = "SimHei" :: font_sans_serif (rcParams fresh_process) /\
    rasterise fig_en 300 "tight" "white" q_en <> rasterise fig_en' 300 "tight" "white" q_en'.
Proof.
  split.
  - intros H.
    destruct (create_spec linux_host "zh" fresh_process) as (fig & q & Hc & _).
    destruct (H "zh" fig q ltac:(right; now left) Hc) as (Hrc & _).
    vm_compute in Hc. injection Hc as _ <-. discriminate Hrc.
  - eexists _, _, _, _, _, _.
    split; [vm_compute; reflexivity|].
    split; [vm_compute; reflexivity|].
    split; [vm_compute; reflexivity|].
    split; [reflexivity|].
    intros H. apply (f_equal (fun i => font_sans_serif (img_rc i))) in H.
    discriminate H.
Qed.

(** C8, amended. The invocation for ['en'] leaves the font configuration
    unchanged; hence, in the order of [main] (English, then Chinese), each of
    the two files [main] writes holds the image that a run rendering that
    language alone writes from the same state. *)
Theorem C8_main_outputs_independent (h : Host) (p : Process) :
  output_dir_usable p ->
  (forall p0, exists fig q0,
      create_fido2_workflow_diagram h "en" p0 = Return fig q0 /\ same_fonts p0 q0) /\
  exists q q_en q_zh img_en img_zh,
    main h p = Return tt q /\
    render_only h "en" en_path p = Return tt q_en /\
    render_only h "zh" zh_path p = Return tt q_zh /\
    files q !! en_path = Some (ImageFile img_en) /\
    files q_en !! en_path = Some (ImageFile img_en) /\
    files q !! zh_path = Some (ImageFile img_zh) /\
    files q_zh !! zh_path = Some (ImageFile img_zh).
Proof.
  intros Hp. split.
  - intros p0.
    destruct (create_spec h "en" p0) as (fig & q0 & Hc & _ & _ & _ & Hq).
    exists fig, q0. split; [exact Hc|].
    rewrite (Hq eq_refl). split; reflexivity.
  - destruct (main_rel h p Hp)
      as (q & q_en & q_zh & _ & _ & img_en & img_zh & Hm & Hen & Hzh & _ & _ & _ & _
          & _ & Hf & Hfen & Hfzh).
    exists q, q_en, q_zh, img_en, img_zh.
    do 3 (split; [assumption|]).
    rewrite Hf, Hfen, Hfzh.
    split; [rewrite lookup_insert_ne by discriminate; apply lookup_insert_eq|].
    repeat split; apply lookup_insert_eq.
Qed.

(** The amended statement of C8 for a run on an empty file system. *)
Lemma C8_main_outputs_independent_witness :
  output_dir_usable fresh_process /\
  (forall p0, exists fig q0,
      create_fido2_workflow_diagram linux_host "en" p0 = Return fig q0 /\
      same_fonts p0 q0) /\
  exists q q_en q_zh img_en img_zh,
    main linux_host fresh_process = Return tt q /\
    render_only linux_host "en" en_path fresh_process = Return tt q_en /\
    render_only linux_host "zh" zh_path fresh_process = Return tt q_zh /\
    files q !! en_path = Some (ImageFile img_en) /\
    files q_en !! en_path = Some (ImageFile img_en) /\
    files q !! zh_path = Some (ImageFile img_zh) /\
    files q_zh !! zh_path = Some (ImageFile img_zh).
Proof.
  assert (H : output_dir_usable fresh_process).
  { split; [right; reflexivity|]. split; vm_compute; reflexivity. }
  split; [exact H|].
  exact (C8_main_outputs_independent linux_host fresh_process H).
Defined.


(** * Properties beyond the specification *)

(** ** Loops *)

(** A loop whose body completes, keeping [I] when it falls through and
    establishing [Q] when it returns, completes likewise. *)
Lemma for_return_post {A R} (I : Process -> Prop) (Q : R -> Process -> Prop)
    (l : list A) (body : A -> M (option R)) :
  (forall a p, In a l -> I p ->
     exists r p', body a p = Return r p' /\
                  match r with Some v => Q v p' | None => I p' end) ->
  forall p, I p ->
    exists r p', for_return l body p = Return r p' /\
                 match r with Some v => Q v p' | None => I p' end.
Proof.
  induction l as [|a l IH]; intros Hbody p Hp; simpl.
  - exists None, p. split; [reflexivity | assumption].
  - destruct (Hbody a p (or_introl eq_refl) Hp) as (r & p1 & Hr & Hp1).
    rewrite (bind_Return _ _ _ _ _ Hr).
    destruct r as [v|].
    + exists (Some v), p1. split; [reflexivity | assumption].
    + apply IH; [| assumption].
      intros a' q Ha'. apply Hbody. now right.
Qed.

(** Iterations that fall through can be run first. *)
Lemma for_return_app {A R} (pre l : list A) (body : A -> M (option R)) p p' :
  for_return pre body p = Return None p' ->
  for_return (pre ++ l) body p = for_return l body p'.
Proof.
  revert p. induction pre as [|a pre IH]; intros p H; simpl in *.
  - unfold ret in H. now injection H as <-.
  - unfold bind in *. destruct (body a p) as [r q|e q]; [|discriminate].
    destruct r as [v|]; [discriminate|]. now apply IH.
Qed.

(** ** [setup_chinese_font] *)

Lemma setup_declined_refl p : setup_declined p p.
Proof. repeat split. exists []. now rewrite app_nil_r. Qed.

Ltac declined_destruct H :=
  destruct H as (Hrc & Hfm & (Hd & Hf & Ho) & (lines & Hout)).

(** What a call of [setup_chinese_font] does, by its return value. *)
Lemma setup_chinese_font_outcome h p :
  exists b q,
    setup_chinese_font h p = Return b q /\
    if b then setup_adopted p q
    else setup_declined p q /\
         exists lines, stdout q = stdout p ++ lines ++ [no_font_warning].
Proof.
  unfold setup_chinese_font.
  set (windows := if String.eqb (platform_system h) "Windows" then _ else _).
  assert (Hwin : exists r q, windows p = Return r q /\
            match r with
            | Some b => b = true /\ setup_adopted p q
            | None => setup_declined p q
            end).
  { subst windows. destruct (String.eqb (platform_system h) "Windows").
    - apply (for_return_post (setup_declined p) (fun b q => b = true /\ setup_adopted p q));
        [| apply setup_declined_refl].
      intros a r Ha Hr. declined_destruct Hr.
      unfold bind, os_path_exists, try_except, fm_addfont.
      destruct (is_dir a r || is_file a r).
      + destruct (addfont_error h a) as [msg|]; cbn.
        * eexists None, _. split; [reflexivity|].
          repeat split; cbn; try assumption.
          eexists. rewrite Hout, <- app_assoc. reflexivity.
        * eexists (Some true), _. split; [reflexivity|]. split; [reflexivity|].
          split; [eexists; cbn; rewrite Hrc; reflexivity|].
          split; [right; exists a; split; [assumption | cbn; now rewrite Hfm]|].
          split; [repeat split; assumption|].
          eexists. cbn. rewrite Hout, <- app_assoc. split; [reflexivity|].
          intros E. now apply app_eq_nil in E as [_ E].
      + exists None, r. split; [reflexivity|]. repeat split; try assumption.
        now exists lines.
    - exists None, p. split; [reflexivity | apply setup_declined_refl]. }
  destruct Hwin as (r & q & Hq & Hpost).
  rewrite (bind_Return _ _ _ _ _ Hq).
  destruct r as [b|].
  - destruct Hpost as [-> Hpost]. exists true, q. split; [reflexivity | assumption].
  - match goal with
    | |- context [for_return chinese_fonts ?body] =>
        destruct (for_return_post (setup_declined p)
                    (fun b s => b = true /\ setup_adopted p s) chinese_fonts body)
          with (p := q) as (r & s & Hs & Hpost'); [| assumption |]
    end.
    + intros a r _ Hr. declined_destruct Hr.
      unfold try_except, bind, fm_findfont, fm_rcParams_sans_serif.
      destruct (findfont h a) as [path|]; cbn.
      * destruct (fm_has_rcParams h); cbn.
        -- eexists (Some true), _. split; [reflexivity|]. split; [reflexivity|].
           split; [eexists; cbn; rewrite Hrc; reflexivity|].
           split; [left; assumption|].
           split; [repeat split; assumption|].
           eexists. cbn. rewrite Hout, <- app_assoc. split; [reflexivity|].
           intros E. now apply app_eq_nil in E as [_ E].
        -- exists None, r. split; [reflexivity|]. repeat split; try assumption.
           now exists lines.
      * exists None, r. split; [reflexivity|]. repeat split; try assumption.
        now exists lines.
    + rewrite (bind_Return _ _ _ _ _ Hs).
      destruct r as [b|].
      * destruct Hpost' as [-> Hpost']. exists true, s.
        split; [reflexivity | assumption].
      * declined_destruct Hpost'.
        eexists false, _. split; [reflexivity|]. cbn.
        split.
        -- repeat split; try assumption. eexists. rewrite Hout, <- app_assoc. reflexivity.
        -- exists lines. now rewrite Hout, <- app_assoc.
Qed.

(** Iterations that fall through without changing the state. *)
Lemma for_return_skip {A R} (l : list A) (body : A -> M (option R)) p :
  (forall a, In a l -> body a p = Return None p) ->
  for_return l body p = Return None p.
Proof.
  induction l as [|a l IH]; intros H; simpl; [reflexivity|].
  rewrite (bind_Return _ _ _ _ _ (H a (or_introl eq_refl))).
  apply IH. intros a' Ha'. apply H. now right.
Qed.

Lemma set_stdout_id p : set_stdout (stdout p ++ []) p = p.
Proof. destruct p. unfold set_stdout; cbn. now rewrite app_nil_r. Qed.

(** On a host other than Windows whose font manager has [rcParams]: the
    first family of [chinese_fonts] for which [findfont] returns is adopted. *)
Lemma setup_family_found h p pre f post path :
  platform_system h <> "Windows" ->
  fm_has_rcParams h = true ->
  chinese_fonts = pre ++ f :: post ->
  Forall (fun g => findfont h g = None) pre ->
  findfont h f = Some path ->
  setup_chinese_font h p =
  Return true (set_stdout (stdout p ++ ["Using Chinese font: " +:+ f]) (adopt_font f p)).
Proof.
  intros Hsys Hrc Hsplit Hpre Hf.
  unfold setup_chinese_font.
  destruct (String.eqb_spec (platform_system h) "Windows") as [E|_]; [contradiction|].
  rewrite (bind_Return _ _ _ _ _ (eq_refl : ret None p = Return None p)).
  rewrite Hsplit.
  match goal with
  | |- context [for_return (pre ++ f :: post) ?body] =>
      rewrite (bind_Return _ _ p (Some true)
                 (set_stdout (stdout p ++ ["Using Chinese font: " +:+ f]) (adopt_font f p)));
      [reflexivity|];
      rewrite (for_return_app pre (f :: post) body p p)
  end.
  - simpl. unfold try_except, bind, fm_findfont, fm_rcParams_sans_serif.
    rewrite Hf, Hrc. reflexivity.
  - apply for_return_skip. intros g Hg.
    rewrite Forall_forall in Hpre.
    unfold try_except, bind, fm_findfont.
    now rewrite (Hpre g ltac:(now apply list_elem_of_In)).
Qed.

(** On a host other than Windows whose font manager has no [rcParams]
    attribute, the lookup gives up. *)
Lemma setup_no_rcParams h p :
  platform_system h <> "Windows" ->
  fm_has_rcParams h = false ->
  setup_chinese_font h p = Return false (set_stdout (stdout p ++ [no_font_warning]) p).
Proof.
  intros Hsys Hrc.
  unfold setup_chinese_font.
  destruct (String.eqb_spec (platform_system h) "Windows") as [E|_]; [contradiction|].
  rewrite (bind_Return _ _ _ _ _ (eq_refl : ret None p = Return None p)).
  match goal with
  | |- context [for_return chinese_fonts ?body] =>
      assert (Hskip : for_return chinese_fonts body p = Return None p)
  end.
  { apply for_return_skip. intros g _.
    unfold try_except, bind, fm_findfont, fm_rcParams_sans_serif.
    rewrite Hrc. destruct (findfont h g); reflexivity. }
  rewrite (bind_Return _ _ _ _ _ Hskip). reflexivity.
Qed.

(** On Windows: the font files that do not exist are passed over, those that
    [addfont] rejects are reported, and the first one that loads is adopted
    under the name of its file. *)
Lemma setup_windows_loads h p pre path post :
  platform_system h = "Windows" ->
  font_paths = pre ++ path :: post ->
  Forall (fun q => path_exists q p = false \/ addfont_error h q <> None) pre ->
  path_exists path p = true ->
  addfont_error h path = None ->
  setup_chinese_font h p =
  Return true
    (set_stdout (stdout p ++ load_failures h p pre ++
                 ["Using Chinese font: " +:+ font_stem path +:+ " from " +:+ path])
       (adopt_font (font_stem path) (set_fontManager (fontManager p ++ [path]) p))).
Proof.
  intros Hsys Hsplit Hpre Hex Hload.
  unfold setup_chinese_font. rewrite Hsys, String.eqb_refl, Hsplit.
  match goal with
  | |- context [for_return (pre ++ path :: post) ?b] => set (body := b)
  end.
  assert (Hfail : forall a p0,
             path_exists a p0 = false \/ addfont_error h a <> None ->
             body a p0 = Return None (set_stdout (stdout p0 ++ load_failures h p0 [a]) p0)).
  { intros a p0 Ha. unfold body, load_failures. simpl.
    unfold bind at 1. unfold os_path_exists.
    change (is_dir a p0 || is_file a p0) with (path_exists a p0).
    destruct (path_exists a p0) eqn:Ea.
    - destruct Ha as [Ha|Ha]; [discriminate|].
      unfold try_except, bind, fm_addfont.
      destruct (addfont_error h a) as [msg|]; [reflexivity | contradiction].
    - unfold ret. now rewrite set_stdout_id. }
  assert (Hskip : forall l p0,
             Forall (fun q => path_exists q p0 = false \/ addfont_error h q <> None) l ->
             for_return l body p0 =
             Return None (set_stdout (stdout p0 ++ load_failures h p0 l) p0)).
  { induction l as [|a l IH]; intros p0 HF.
    - simpl. unfold ret. now rewrite set_stdout_id.
    - apply Forall_cons in HF as [Ha HF]. simpl.
      rewrite (bind_Return _ _ _ _ _ (Hfail a p0 Ha)).
      rewrite IH by exact HF.
      change (load_failures h p0 (a :: l))
        with (load_failures h p0 [a] ++ load_failures h p0 l).
      unfold set_stdout; cbn. now rewrite app_nil_r, <- app_assoc. }
  assert (Hload' : body path (set_stdout (stdout p ++ load_failures h p pre) p) =
            Return (Some true)
              (set_stdout (stdout p ++ load_failures h p pre ++
                 ["Using Chinese font: " +:+ font_stem path +:+ " from " +:+ path])
                 (adopt_font (font_stem path)
                    (set_fontManager (fontManager p ++ [path]) p)))).
  { unfold body. unfold bind at 1. unfold os_path_exists.
    change (is_dir path (set_stdout (stdout p ++ load_failures h p pre) p)
            || is_file path (set_stdout (stdout p ++ load_failures h p pre) p))
      with (path_exists path p).
    rewrite Hex. unfold try_except, bind, fm_addfont. rewrite Hload. cbn.
    unfold set_stdout, adopt_font, set_rcParams, set_fontManager, font_stem; cbn.
    now rewrite <- app_assoc. }
  assert (Hloop : for_return (pre ++ path :: post) body p =
            Return (Some true)
              (set_stdout (stdout p ++ load_failures h p pre ++
                 ["Using Chinese font: " +:+ font_stem path +:+ " from " +:+ path])
                 (adopt_font (font_stem path)
                    (set_fontManager (fontManager p ++ [path]) p)))).
  { rewrite (for_return_app pre (path :: post) body p _ (Hskip pre p Hpre)).
    simpl. now rewrite (bind_Return _ _ _ _ _ Hload'). }
  now rewrite (bind_Return _ _ _ _ _ Hloop).
Qed.

(** The font lookup always returns, leaves the file system and the open
    figures alone, and prints at least one line. *)
Lemma setup_always_returns h p :
  exists b q,
    setup_chinese_font h p = Return b q /\
    setup_untouched p q /\
    exists lines, stdout q = stdout p ++ lines /\ lines <> [].
Proof.
  destruct (setup_chinese_font_outcome h p) as (b & q & Hq & Hpost).
  exists b, q. split; [exact Hq|].
  destruct b.
  - destruct Hpost as (_ & _ & Hu & Hout). split; assumption.
  - destruct Hpost as ((_ & _ & Hu & _) & (lines & Hout)).
    split; [assumption|].
    exists (lines ++ [no_font_warning]). split; [assumption|].
    intros E. now apply app_eq_nil in E as [_ E].
Qed.

(** X1. [setup_chinese_font] never raises: the exceptions of [addfont],
    [findfont] and of the access to [fm.rcParams] are all caught. It leaves
    the file system and the open figures alone, and prints at least one
    line. *)
Theorem setup_chinese_font_never_raises (h : Host) (p : Process) :
  exists b q,
    setup_chinese_font h p = Return b q /\
    setup_untouched p q /\
    exists lines, stdout q = stdout p ++ lines /\ lines <> [].
Proof. apply setup_always_returns. Qed.

(** X2. The return value of [setup_chinese_font] tells what it did: [True]
    exactly when one family name has been put in front of
    [rcParams['font.sans-serif']] and [axes.unicode_minus] has been switched
    off; [False] exactly when [rcParams] and the font manager are unchanged,
    and then the last line printed is the warning. *)
Theorem setup_chinese_font_result_tells_effect (h : Host) (p : Process) :
  exists b q,
    setup_chinese_font h p = Return b q /\
    if b then
      exists name,
        rcParams q = {| font_sans_serif := name :: font_sans_serif (rcParams p);
                        axes_unicode_minus := false |}
    else
      rcParams q = rcParams p /\ fontManager q = fontManager p /\
      exists lines, stdout q = stdout p ++ lines ++ [no_font_warning].
Proof.
  destruct (setup_chinese_font_outcome h p) as (b & q & Hq & Hpost).
  exists b, q. split; [exact Hq|].
  destruct b.
  - apply Hpost.
  - destruct Hpost as ((Hrc & Hfm & _) & Hout). repeat split; assumption.
Qed.

(** X3. On a host other than Windows whose font manager has [rcParams], the
    first family of [chinese_fonts] for which [findfont] returns at all is
    adopted, whatever path [findfont] returned: the test
    [font_path != fm.rcParams['font.sans-serif']] compares a string with a
    list and never fails. *)
Theorem setup_adopts_first_family_found (h : Host) (p : Process)
    (pre : list string) (f : string) (post : list string) (path : string) :
  platform_system h <> "Windows" ->
  fm_has_rcParams h = true ->
  chinese_fonts = pre ++ f :: post ->
  Forall (fun g => findfont h g = None) pre ->
  findfont h f = Some path ->
  setup_chinese_font h p =
  Return true (set_stdout (stdout p ++ ["Using Chinese font: " +:+ f]) (adopt_font f p)).
Proof. apply setup_family_found. Qed.

(** X3 on the example host, whose [findfont] answers for "SimHei". *)
Lemma setup_adopts_first_family_found_witness :
  platform_system linux_host <> "Windows" /\
  fm_has_rcParams linux_host = true /\
  chinese_fonts = [] ++ "SimHei" :: tl chinese_fonts /\
  Forall (fun g => findfont linux_host g = None) [] /\
  findfont linux_host "SimHei" = Some "/usr/share/fonts/SimHei.ttf" /\
  setup_chinese_font linux_host fresh_process =
  Return true (set_stdout (stdout fresh_process ++ ["Using Chinese font: SimHei"])
                 (adopt_font "SimHei" fresh_process)).
Proof.
  assert (H1 : platform_system linux_host <> "Windows") by discriminate.
  assert (H2 : fm_has_rcParams linux_host = true) by reflexivity.
  assert (H3 : chinese_fonts = [] ++ "SimHei" :: tl chinese_fonts) by reflexivity.
  assert (H4 : Forall (fun g => findfont linux_host g = None) []) by constructor.
  assert (H5 : findfont linux_host "SimHei" = Some "/usr/share/fonts/SimHei.ttf")
    by reflexivity.
  repeat (split; [assumption|]).
  exact (setup_adopts_first_family_found linux_host fresh_process [] "SimHei"
           (tl chinese_fonts) "/usr/share/fonts/SimHei.ttf" H1 H2 H3 H4 H5).
Defined.

(** X4. On a host other than Windows whose module [matplotlib.font_manager]
    has no attribute [rcParams], the lookup gives up whatever fonts are
    installed: every iteration ends in the bare [except], [rcParams] is left
    unchanged and only the warning is printed. *)
Theorem setup_gives_up_without_fm_rcParams (h : Host) (p : Process) :
  platform_system h <> "Windows" ->
  fm_has_rcParams h = false ->
  setup_chinese_font h p = Return false (set_stdout (stdout p ++ [no_font_warning]) p).
Proof. apply setup_no_rcParams. Qed.

(** X4 on a host where [findfont] answers for every family. *)
Lemma setup_gives_up_without_fm_rcParams_witness :
  platform_system recent_host <> "Windows" /\
  fm_has_rcParams recent_host = false /\
  setup_chinese_font recent_host fresh_process =
  Return false (set_stdout (stdout fresh_process ++ [no_font_warning]) fresh_process).
Proof.
  assert (H1 : platform_system recent_host <> "Windows") by discriminate.
  assert (H2 : fm_has_rcParams recent_host = false) by reflexivity.
  repeat (split; [assumption|]).
  exact (setup_gives_up_without_fm_rcParams recent_host fresh_process H1 H2).
Defined.

(** X5. On Windows the font files are tried in the order of [font_paths]:
    those that do not exist are passed over silently, those that [addfont]
    rejects are reported with "Failed to load font", and the first one that
    loads is registered with the font manager and adopted under the base name
    of the file without its extension. *)
Theorem setup_windows_adopts_first_loadable_file (h : Host) (p : Process)
    (pre : list string) (path : string) (post : list string) :
  platform_system h = "Windows" ->
  font_paths = pre ++ path :: post ->
  Forall (fun q => path_exists q p = false \/ addfont_error h q <> None) pre ->
  path_exists path p = true ->
  addfont_error h path = None ->
  setup_chinese_font h p =
  Return true
    (set_stdout (stdout p ++ load_failures h p pre ++
                 ["Using Chinese font: " +:+ font_stem path +:+ " from " +:+ path])
       (adopt_font (font_stem path) (set_fontManager (fontManager p ++ [path]) p))).
Proof. apply setup_windows_loads. Qed.

(** X5 on a Windows host where only [msyh.ttc] is installed: the family
    adopted is "msyh". *)
Lemma setup_windows_adopts_first_loadable_file_witness :
  platform_system windows_host = "Windows" /\
  font_paths = ["C:/Windows/Fonts/simhei.ttf"]
               ++ "C:/Windows/Fonts/msyh.ttc" :: tl (tl font_paths) /\
  Forall (fun q => path_exists q msyh_process = false \/ addfont_error windows_host q <> None)
    ["C:/Windows/Fonts/simhei.ttf"] /\
  path_exists "C:/Windows/Fonts/msyh.ttc" msyh_process = true /\
  addfont_error windows_host "C:/Windows/Fonts/msyh.ttc" = None /\
  setup_chinese_font windows_host msyh_process =
  Return true
    (set_stdout (stdout msyh_process ++ [] ++
                 ["Using Chinese font: msyh from C:/Windows/Fonts/msyh.ttc"])
       (adopt_font "msyh"
          (set_fontManager (fontManager msyh_process ++ ["C:/Windows/Fonts/msyh.ttc"])
             msyh_process))).
Proof.
  assert (H1 : platform_system windows_host = "Windows") by reflexivity.
  assert (H2 : font_paths = ["C:/Windows/Fonts/simhei.ttf"]
                            ++ "C:/Windows/Fonts/msyh.ttc" :: tl (tl font_paths))
    by reflexivity.
  assert (H3 : Forall (fun q => path_exists q msyh_process = false
                                \/ addfont_error windows_host q <> None)
                 ["C:/Windows/Fonts/simhei.ttf"])
    by (constructor; [left; vm_compute; reflexivity | constructor]).
  assert (H4 : path_exists "C:/Windows/Fonts/msyh.ttc" msyh_process = true)
    by (vm_compute; reflexivity).
  assert (H5 : addfont_error windows_host "C:/Windows/Fonts/msyh.ttc" = None)
    by reflexivity.
  repeat (split; [assumption|]).
  exact (setup_windows_adopts_first_loadable_file windows_host msyh_process
           ["C:/Windows/Fonts/simhei.ttf"] "C:/Windows/Fonts/msyh.ttc"
           (tl (tl font_paths)) H1 H2 H3 H4 H5).
Defined.

(** X6. Calls accumulate: under the conditions of X3, a second call adopts
    the same family again, so that it stands twice in front of
    [rcParams['font.sans-serif']]. *)
Theorem setup_twice_duplicates_family (h : Host) (p : Process)
    (pre : list string) (f : string) (post : list string) (path : string) :
  platform_system h <> "Windows" ->
  fm_has_rcParams h = true ->
  chinese_fonts = pre ++ f :: post ->
  Forall (fun g => findfont h g = None) pre ->
  findfont h f = Some path ->
  exists q,
    (setup_chinese_font h ;; setup_chinese_font h) p = Return true q /\
    font_sans_serif (rcParams q) = f :: f :: font_sans_serif (rcParams p) /\
    stdout q = stdout p ++ ["Using Chinese font: " +:+ f; "Using Chinese font: " +:+ f].
Proof.
  intros H1 H2 H3 H4 H5.
  eexists. split.
  - rewrite (bind_Return _ _ _ _ _ (setup_family_found h p pre f post path H1 H2 H3 H4 H5)).
    apply (setup_family_found h _ pre f post path H1 H2 H3 H4 H5).
  - split; [reflexivity|]. cbn. now rewrite <- app_assoc.
Qed.

(** X6 on the example host. *)
Lemma setup_twice_duplicates_family_witness :
  platform_system linux_host <> "Windows" /\
  fm_has_rcParams linux_host = true /\
  chinese_fonts = [] ++ "SimHei" :: tl chinese_fonts /\
  Forall (fun g => findfont linux_host g = None) [] /\
  findfont linux_host "SimHei" = Some "/usr/share/fonts/SimHei.ttf" /\
  exists q,
    (setup_chinese_font linux_host ;; setup_chinese_font linux_host) fresh_process
      = Return true q /\
    font_sans_serif (rcParams q)
      = "SimHei" :: "SimHei" :: font_sans_serif (rcParams fresh_process) /\
    stdout q = stdout fresh_process
               ++ ["Using Chinese font: " +:+ "SimHei"; "Using Chinese font: " +:+ "SimHei"].
Proof.
  assert (H1 : platform_system linux_host <> "Windows") by discriminate.
  assert (H2 : fm_has_rcParams linux_host = true) by reflexivity.
  assert (H3 : chinese_fonts = [] ++ "SimHei" :: tl chinese_fonts) by reflexivity.
  assert (H4 : Forall (fun g => findfont linux_host g = None) []) by constructor.
  assert (H5 : findfont linux_host "SimHei" = Some "/usr/share/fonts/SimHei.ttf")
    by reflexivity.
  repeat (split; [assumption|]).
  exact (setup_twice_duplicates_family linux_host fresh_process [] "SimHei"
           (tl chinese_fonts) "/usr/share/fonts/SimHei.ttf" H1 H2 H3 H4 H5).
Defined.

(** ** [create_fido2_workflow_diagram], [save_diagram] and [main] *)

(** For ['zh'] the call is the font lookup followed by the drawing, which
    opens one figure. *)
Lemma create_after_setup h p b q0 :
  setup_chinese_font h p = Return b q0 ->
  exists fig,
    create_fido2_workflow_diagram h "zh" p
      = Return fig (set_open_figures (S (open_figures q0)) q0) /\
    rendered "zh" = Some fig.
Proof.
  intros H.
  assert (H' : (setup_chinese_font h ;; ret tt) p = Return tt q0)
    by (unfold bind; now rewrite H).
  unfold create_fido2_workflow_diagram, resolve_text, if_en. cbv beta iota.
  change (String.eqb "zh" "zh") with true. cbv beta iota.
  eexists. split.
  - rewrite (bind_Return _ _ _ _ _ H'). vm_compute. reflexivity.
  - vm_compute. reflexivity.
Qed.

(** The state in which a call leaves the process: that of the font lookup
    for ['zh'], the initial one otherwise, with one more open figure. *)
Lemma create_state h language p :
  exists fig q0,
    create_fido2_workflow_diagram h language p
      = Return fig (set_open_figures (S (open_figures q0)) q0) /\
    rendered (tag_class language) = Some fig /\
    if String.eqb language "zh" then exists b, setup_chinese_font h p = Return b q0
    else q0 = p.
Proof.
  destruct (String.eqb language "zh") eqn:E.
  - apply String.eqb_eq in E. subst language.
    destruct (setup_chinese_font_outcome h p) as (b & q0 & Hq & _).
    destruct (create_after_setup h p b q0 Hq) as (fig & Hc & Hr).
    exists fig, q0. repeat split; try assumption. now exists b.
  - destruct (create_spec h language p) as (fig & q & Hc & Hr & _ & _ & Hq).
    exists fig, p. rewrite <- (Hq E). repeat split; assumption.
Qed.

(** One rendering block, when the file can be written. *)
Lemma render_trace h language filename p :
  is_dir filename p = false -> is_dir (path_dirname filename) p = true ->
  exists q0 q,
    (if String.eqb language "zh" then exists b, setup_chinese_font h p = Return b q0
     else q0 = p) /\
    render h language filename p = Return tt q /\
    stdout q = stdout q0 ++ ["Diagram saved as " +:+ filename] /\
    open_figures q = open_figures q0 /\
    rcParams q = rcParams q0 /\ fontManager q = fontManager q0 /\
    dirs q = dirs p.
Proof.
  intros Hf Hd.
  destruct (create_state h language p) as (fig & q0 & Hc & _ & Hq0).
  assert (Hdirs : dirs q0 = dirs p).
  { destruct (String.eqb language "zh").
    - destruct Hq0 as (b & Hs).
      destruct (setup_chinese_font_outcome h p) as (b' & q' & Hs' & Hpost).
      rewrite Hs in Hs'. injection Hs' as <- <-.
      destruct b; [apply Hpost | apply Hpost]. 
    - now subst q0. }
  pose proof (fig_savefig_Return fig filename save_diagram_dpi "tight" "white"
                (set_open_figures (S (open_figures q0)) q0)) as Hs.
  rewrite !(is_dir_same_dirs _ p (set_open_figures (S (open_figures q0)) q0) Hdirs) in Hs.
  specialize (Hs Hf Hd).
  exists q0. eexists. split; [exact Hq0|].
  split.
  { unfold render, save_diagram. rewrite (bind_Return _ _ _ _ _ Hc).
    unfold bind. rewrite Hs. reflexivity. }
  cbn. repeat split; assumption.
Qed.

(** What a successful run of [main] prints, and that it closes its
    figures. *)
Lemma main_trace h p :
  output_dir_usable p ->
  exists q lines,
    main h p = Return tt q /\
    stdout q = stdout p
               ++ ["Generating English FIDO2 workflow diagram...";
                   "Diagram saved as images/fido2_workflow_en.png";
                   "Generating Chinese FIDO2 workflow diagram..."]
               ++ lines
               ++ ["Diagram saved as images/fido2_workflow_zh.png";
                   "All diagrams generated successfully!"] /\
    lines <> [] /\
    open_figures q = open_figures p.
Proof.
  intros (Himg & Hen & Hzh).
  rewrite main_blocks.
  rewrite (bind_Return _ _ _ _ _ (os_makedirs_images p Himg)).
  assert (Hprint : forall s r, print s r = Return tt (set_stdout (stdout r ++ [s]) r))
    by reflexivity.
  rewrite (bind_Return _ _ _ _ _ (Hprint _ _)).
  match goal with
  | |- context [bind (render h "en" en_path) _ ?p2] =>
      destruct (render_trace h "en" en_path p2)
        as (q0 & q3 & Hq0 & Hr3 & Hout3 & Ho3 & _ & _ & Hd3)
  end.
  { rewrite (is_dir_new _ "images" p) by reflexivity. now rewrite Hen. }
  { rewrite (is_dir_new _ "images" p) by reflexivity. reflexivity. }
  cbn in Hq0. subst q0.
  rewrite (bind_Return _ _ _ _ _ Hr3).
  rewrite (bind_Return _ _ _ _ _ (Hprint _ _)).
  match goal with
  | |- context [bind (render h "zh" zh_path) _ ?p4] =>
      destruct (render_trace h "zh" zh_path p4)
        as (q0 & q5 & Hq0 & Hr5 & Hout5 & Ho5 & _ & _ & Hd5)
  end.
  { rewrite (is_dir_new _ "images" p) by (cbn; now rewrite Hd3). now rewrite Hzh. }
  { rewrite (is_dir_new _ "images" p) by (cbn; now rewrite Hd3). reflexivity. }
  cbn in Hq0. destruct Hq0 as (b & Hs).
  match type of Hs with
  | setup_chinese_font h ?p4 = _ =>
      destruct (setup_always_returns h p4)
        as (b' & q' & Hs' & (_ & _ & Ho) & (lines & Hout & Hne))
  end.
  rewrite Hs in Hs'. injection Hs' as <- <-.
  rewrite (bind_Return _ _ _ _ _ Hr5).
  rewrite (Hprint _ q5).
  eexists _, lines. split; [reflexivity|].
  cbn. rewrite Hout5, Hout, Ho5, Ho. cbn. rewrite Hout3, Ho3. cbn.
  split; [|split; [assumption | reflexivity]].
  rewrite <- !app_assoc. reflexivity.
Qed.

Lemma bind_Raise {A B} (c : M A) (k : A -> M B) p e p' :
  c p = Raise e p' -> bind c k p = Raise e p'.
Proof. intros H. unfold bind. now rewrite H. Qed.

(** X7. For a language tag other than ['zh'] the call never consults the
    host, prints nothing and leaves the font configuration alone: its only
    effect on the process is one more open figure, and the figure returned is
    the same on every host. *)
Theorem create_other_tags_only_open_a_figure (language : string) (p : Process) :
  language <> "zh" ->
  exists fig,
    forall h : Host,
      create_fido2_workflow_diagram h language p
        = Return fig (set_open_figures (S (open_figures p)) p).
Proof.
  intros Hne.
  assert (E : String.eqb language "zh" = false) by now apply String.eqb_neq.
  destruct (create_spec linux_host language p) as (fig & q & _ & Hr & _).
  exists fig. intros h.
  destruct (create_spec h language p) as (fig' & q' & Hc & Hr' & _ & _ & Hq).
  rewrite Hr in Hr'. injection Hr' as <-. now rewrite <- (Hq E).
Qed.

(** X7 for the tag ['en']. *)
Lemma create_other_tags_only_open_a_figure_witness :
  "en" <> "zh" /\
  exists fig,
    forall h : Host,
      create_fido2_workflow_diagram h "en" fresh_process
        = Return fig (set_open_figures (S (open_figures fresh_process)) fresh_process).
Proof.
  assert (H : "en" <> "zh") by discriminate.
  split; [exact H|].
  exact (create_other_tags_only_open_a_figure "en" fresh_process H).
Defined.

(** X8. For ['zh'] the call first runs the font lookup and then draws: the
    state it leaves is the one the lookup left, with one more open figure, and
    the figure is the same whether or not a font was adopted. *)
Theorem create_zh_draws_whatever_the_lookup_did (h : Host) (p : Process) :
  exists b q0 fig,
    setup_chinese_font h p = Return b q0 /\
    create_fido2_workflow_diagram h "zh" p
      = Return fig (set_open_figures (S (open_figures q0)) q0) /\
    rendered "zh" = Some fig.
Proof.
  destruct (setup_chinese_font_outcome h p) as (b & q0 & Hq & _).
  destruct (create_after_setup h p b q0 Hq) as (fig & Hc & Hr).
  now exists b, q0, fig.
Qed.


(** X10. After a successful run of [main] the standard output has grown by
    the progress lines in this order, with the lines of the font lookup (at
    least one) between "Generating Chinese ..." and the second confirmation,
    and both figures have been closed. *)
Theorem main_prints_progress_and_closes_figures (h : Host) (p : Process) :
  output_dir_usable p ->
  exists q lines,
    main h p = Return tt q /\
    stdout q = stdout p
               ++ ["Generating English FIDO2 workflow diagram...";
                   "Diagram saved as images/fido2_workflow_en.png";
                   "Generating Chinese FIDO2 workflow diagram..."]
               ++ lines
               ++ ["Diagram saved as images/fido2_workflow_zh.png";
                   "All diagrams generated successfully!"] /\
    lines <> [] /\
    open_figures q = open_figures p.
Proof. apply main_trace. Qed.

(** X10 for a run on an empty file system. *)
Lemma main_prints_progress_and_closes_figures_witness :
  output_dir_usable fresh_process /\
  exists q lines,
    main linux_host fresh_process = Return tt q /\
    stdout q = stdout fresh_process
               ++ ["Generating English FIDO2 workflow diagram...";
                   "Diagram saved as images/fido2_workflow_en.png";
                   "Generating Chinese FIDO2 workflow diagram..."]
               ++ lines
               ++ ["Diagram saved as images/fido2_workflow_zh.png";
                   "All diagrams generated successfully!"] /\
    lines <> [] /\
    open_figures q = open_figures fresh_process.
Proof.
  assert (H : output_dir_usable fresh_process).
  { split; [right; reflexivity|]. split; vm_compute; reflexivity. }
  split; [exact H|].
  exact (main_prints_progress_and_closes_figures linux_host fresh_process H).
Defined.

(** X11. When [images] exists and is a regular file, [main] raises
    [FileExistsError] at once: nothing is printed, no figure is created and
    the state is untouched. *)
Theorem main_fails_when_images_is_a_file (h : Host) (p : Process) :
  is_dir "images" p = false ->
  is_file "images" p = true ->
  main h p = Raise (FileExistsError "images") p.
Proof.
  intros Hd Hf. unfold main.
  apply bind_Raise. unfold os_makedirs. now rewrite Hd, Hf.
Qed.

(** X11 on a file system where [images] is a file. *)
Lemma main_fails_when_images_is_a_file_witness :
  is_dir "images" images_is_file_process = false /\
  is_file "images" images_is_file_process = true /\
  main linux_host images_is_file_process = Raise (FileExistsError "images") images_is_file_process.
Proof.
  assert (H1 : is_dir "images" images_is_file_process = false) by (vm_compute; reflexivity).
  assert (H2 : is_file "images" images_is_file_process = true) by (vm_compute; reflexivity).
  repeat (split; [assumption|]).
  exact (main_fails_when_images_is_a_file linux_host images_is_file_process H1 H2).
Defined.

(** X12. When the first [savefig] fails (here: a directory has the name of
    the English output file), [main] raises at that point: the English figure
    has been created and is never closed, nothing has been written, only the
    first progress line has been printed, and the Chinese diagram is not
    attempted. *)
Theorem main_leaves_figure_open_when_save_fails (h : Host) (p : Process) :
  is_dir "images" p = true \/ is_file "images" p = false ->
  is_dir en_path p = true ->
  exists q,
    main h p = Raise (IsADirectoryError en_path) q /\
    open_figures q = S (open_figures p) /\
    stdout q = stdout p ++ ["Generating English FIDO2 workflow diagram..."] /\
    files q = files p /\
    rcParams q = rcParams p.
Proof.
  intros Himg Hen.
  rewrite main_blocks.
  rewrite (bind_Return _ _ _ _ _ (os_makedirs_images p Himg)).
  assert (Hprint : forall s r, print s r = Return tt (set_stdout (stdout r ++ [s]) r))
    by reflexivity.
  rewrite (bind_Return _ _ _ _ _ (Hprint _ _)).
  match goal with
  | |- context [bind (render h "en" en_path) _ ?p2] =>
      destruct (create_state h "en" p2) as (fig & q0 & Hc & _ & Hq0);
      cbn in Hq0; subst q0;
      assert (Hr : render h "en" en_path p2
                   = Raise (IsADirectoryError en_path)
                       (set_open_figures (S (open_figures p2)) p2))
  end.
  { unfold render. rewrite (bind_Return _ _ _ _ _ Hc).
    apply bind_Raise. unfold save_diagram. apply bind_Raise.
    unfold fig_savefig.
    rewrite (is_dir_new en_path "images" p) by reflexivity.
    now rewrite Hen, orb_true_r. }
  eexists. split; [exact (bind_Raise _ _ _ _ _ Hr)|].
  repeat split.
Qed.

(** X12 on a file system where the English output path is a directory. *)
Lemma main_leaves_figure_open_when_save_fails_witness :
  (is_dir "images" en_path_is_dir_process = true
   \/ is_file "images" en_path_is_dir_process = false) /\
  is_dir en_path en_path_is_dir_process = true /\
  exists q,
    main linux_host en_path_is_dir_process = Raise (IsADirectoryError en_path) q /\
    open_figures q = S (open_figures en_path_is_dir_process) /\
    stdout q = stdout en_path_is_dir_process
               ++ ["Generating English FIDO2 workflow diagram..."] /\
    files q = files en_path_is_dir_process /\
    rcParams q = rcParams en_path_is_dir_process.
Proof.
  assert (H1 : is_dir "images" en_path_is_dir_process = true
               \/ is_file "images" en_path_is_dir_process = false)
    by (right; reflexivity).
  assert (H2 : is_dir en_path en_path_is_dir_process = true) by (vm_compute; reflexivity).
  repeat (split; [assumption|]).
  exact (main_leaves_figure_open_when_save_fails linux_host en_path_is_dir_process H1 H2).
Defined.

(** X13. [main] can be run again: after a successful run the output can
    still be written, a second run returns too, creates no directory and no
    new file, and overwrites the two images. *)
Theorem main_can_run_twice (h : Host) (p : Process) :
  output_dir_usable p ->
  exists q q' img_en img_zh,
    main h p = Return tt q /\
    output_dir_usable q /\
    main h q = Return tt q' /\
    dirs q' = dirs q /\
    (forall path, is_file path q' = is_file path q) /\
    files q' = <[ zh_path := ImageFile img_zh ]> (<[ en_path := ImageFile img_en ]> (files q)).
Proof.
  intros Hp.
  destruct (main_rel h p Hp)
    as (q & _ & _ & _ & _ & i_en & i_zh & Hm & _ & _ & _ & _ & _ & _ & Hd & Hf & _).
  assert (Hq : output_dir_usable q).
  { destruct Hp as (_ & Hen & Hzh). split; [left|split].
    - rewrite (is_dir_new _ _ _ _ Hd). reflexivity.
    - rewrite (is_dir_new _ _ _ _ Hd). now rewrite Hen.
    - rewrite (is_dir_new _ _ _ _ Hd). now rewrite Hzh. }
  destruct (main_rel h q Hq)
    as (q' & _ & _ & _ & _ & img_en & img_zh & Hm' & _ & _ & _ & _ & _ & _ & Hd' & Hf' & _).
  exists q, q', img_en, img_zh.
  split; [exact Hm|]. split; [exact Hq|]. split; [exact Hm'|].
  split; [rewrite Hd', Hd; set_solver|].
  split; [|exact Hf'].
  intros path. unfold is_file. rewrite Hf', Hf.
  destruct (String.eqb_spec zh_path path) as [<-|Hz].
  - now rewrite !lookup_insert_eq.
  - rewrite (lookup_insert_ne _ zh_path path) by assumption.
    destruct (String.eqb_spec en_path path) as [<-|He].
    + rewrite lookup_insert_eq.
      rewrite lookup_insert_ne by discriminate. now rewrite lookup_insert_eq.
    + rewrite (lookup_insert_ne _ en_path path) by assumption.
      now rewrite !lookup_insert_ne by assumption.
Qed.

(** X13 for two runs from an empty file system. *)
Lemma main_can_run_twice_witness :
  output_dir_usable fresh_process /\
  exists q q' img_en img_zh,
    main linux_host fresh_process = Return tt q /\
    output_dir_usable q /\
    main linux_host q = Return tt q' /\
    dirs q' = dirs q /\
    (forall path, is_file path q' = is_file path q) /\
    files q' = <[ zh_path := ImageFile img_zh ]> (<[ en_path := ImageFile img_en ]> (files q)).
Proof.
  assert (H : output_dir_usable fresh_process).
  { split; [right; reflexivity|]. split; vm_compute; reflexivity. }
  split; [exact H|].
  exact (main_can_run_twice linux_host fresh_process H).
Defined.

(** ** Layout *)

(** X14. Whatever the language tag, every box has the same size, style,
    border colour and border width, and the text of each step is anchored
    exactly at the centre of its box, also in floating-point arithmetic. *)
Theorem boxes_uniform_and_texts_centred (h : Host) (language : string) (p : Process) :
  exists fig q,
    create_fido2_workflow_diagram h language p = Return fig q /\
    Forall (fun b => box_width b = 3%float /\ box_height b = 0.5%float /\
                     box_boxstyle b = "round,pad=0.1" /\
                     box_edgecolor b = "#1976D2" /\ box_linewidth b = 2%Z)
      (boxes fig) /\
    Forall2 (fun b t => point_eqb (text_x t, text_y t) (box_center b) = true)
      (boxes fig) (filter text_wrap (ax_texts (fig_axes fig))).
Proof.
  destruct (create_spec h language p) as (fig & q & Hc & Hr & _).
  exists fig, q. split; [exact Hc|].
  destruct (tag_class_cases language) as [E|[E|E]]; rewrite E in Hr;
    evaluate_rendered Hr;
    (match goal with
     | |- context [boxes ?f] =>
         remember (boxes f) as bs eqn:Ebs; vm_compute in Ebs;
         remember (filter text_wrap (ax_texts (fig_axes f))) as ts eqn:Ets;
         vm_compute in Ets; subst bs ts
     end;
     split; repeat constructor).
Qed.

(** X15. The arrows and the boxes: nine of the thirteen arrows start in one
    box and end in another, along the edges 3-4, 14-15, 4-5, 6-7, 11-12,
    12-13, 13-14, 16-17 and 17-18 of the workflow; the arrows that the source
    calls "Step 5 to PIN decision", "PIN decision to PIN not set",
    "Step 10 to Step 11" and "credential lookup to credential not found"
    start in no box, and the first of them ends in no box either. *)
Theorem arrows_and_boxes (h : Host) (language : string) (p : Process) :
  exists fig q,
    create_fido2_workflow_diagram h language p = Return fig q /\
    arrow_edges fig =
      [ ([3], [4]); ([14], [15]); ([4], [5]); ([], []); ([], [6]); ([6], [7]);
        ([], [11]); ([11], [12]); ([12], [13]); ([13], [14]); ([], [16]);
        ([16], [17]); ([17], [18]) ]%nat.
Proof.
  destruct (create_spec h language p) as (fig & q & Hc & Hr & _).
  exists fig, q. split; [exact Hc|].
  destruct (tag_class_cases language) as [E|[E|E]]; rewrite E in Hr;
    evaluate_rendered Hr; vm_compute; reflexivity.
Qed.
